(** * The trading signal bridge

    A shallow embedding of [bridge/signal_manager.py] (the [TradeSignal]
    value object and the [SignalManager] store) and of the request
    dispatcher and heartbeat monitor of [bridge/mql5_bridge.py], followed by
    the properties of the store, of validation, of serialization and of the
    liveness tracking.

    Conventions of the embedding:
    - Python [float] is the kernel's binary64 [float]; its comparisons are
      the IEEE ones ([nan] compares false with everything).
    - Python [int] is [Z].
    - Python [str] is [string]; the model covers ASCII text, on which
      [len] counts characters and [str.upper] maps [a-z] to [A-Z].
    - A [set] of ids is a [gset string], a [dict] with string keys is a
      [gmap string _].
    - Instance attributes mutated in place become explicit state passing:
      every method takes the object and returns its result together with
      the object afterwards. *)

From Stdlib Require Import ZArith List String Ascii Floats DecimalString Lia Bool.
From stdpp Require Import gmap strings list.

Local Open Scope Z_scope.

(** ** Python primitives used by the two modules *)

Module Py.

(** Position denoted by the slice bound [k] on [l]: a negative bound
    counts from the end; bounds beyond either end are clamped by
    [firstn]/[skipn] and by [Z.to_nat]. *)
Definition slice_index {A} (l : list A) (k : Z) : nat :=
  if k <? 0 then Z.to_nat (Z.of_nat (length l) + k) else Z.to_nat k.

(** [l[:k]] *)
Definition slice_to {A} (l : list A) (k : Z) : list A :=
  firstn (slice_index l k) l.

(** [l[k:]] *)
Definition slice_from {A} (l : list A) (k : Z) : list A :=
  skipn (slice_index l k) l.

Definition upper_ascii (c : ascii) : ascii :=
  let n := nat_of_ascii c in
  if ((97 <=? n) && (n <=? 122))%nat then ascii_of_nat (n - 32) else c.

(** [s.upper()] *)
Fixpoint upper (s : string) : string :=
  match s with
  | EmptyString => EmptyString
  | String c s' => String (upper_ascii c) (upper s')
  end.

(** [bool(s)] for a string *)
Definition truthy_str (s : string) : bool :=
  match s with EmptyString => false | _ => true end.

(** [bool(x)] for a float: everything but zero, [nan] included *)
Definition truthy_float (x : float) : bool := negb (x =? 0)%float.

(** [bool(o)] for an optional float: [None] is falsy *)
Definition truthy_opt (o : option float) : bool :=
  match o with None => false | Some x => truthy_float x end.

(** [x >= y] *)
Definition geb (x y : float) : bool := (y <=? x)%float.

(** [str(n)] for an int *)
Definition str_of_int (n : Z) : string := NilZero.string_of_int (Z.to_int n).

End Py.

(** ** [datetime]: naive timestamps *)

Record datetime := Datetime {
  year : Z; month : Z; day : Z;
  hour : Z; minute : Z; second : Z; microsecond : Z
}.

Definition is_leap (y : Z) : bool :=
  (y mod 4 =? 0) && (negb (y mod 100 =? 0) || (y mod 400 =? 0)).

Definition days_in_month (y m : Z) : Z :=
  match m with
  | 2 => if is_leap y then 29 else 28
  | 4 | 6 | 9 | 11 => 30
  | _ => 31
  end.

(** The range checks of the [datetime] constructor. *)
Definition wf_datetime (d : datetime) : bool :=
  (1 <=? year d) && (year d <=? 9999) &&
  (1 <=? month d) && (month d <=? 12) &&
  (1 <=? day d) && (day d <=? days_in_month (year d) (month d)) &&
  (0 <=? hour d) && (hour d <? 24) &&
  (0 <=? minute d) && (minute d <? 60) &&
  (0 <=? second d) && (second d <? 60) &&
  (0 <=? microsecond d) && (microsecond d <? 1000000).

Definition days_before_year (y : Z) : Z :=
  let p := y - 1 in p * 365 + p / 4 - p / 100 + p / 400.

Fixpoint days_before_month_aux (y : Z) (n : nat) : Z :=
  match n with
  | O => 0
  | S n' => days_before_month_aux y n' + days_in_month y (Z.of_nat n)
  end.

Definition days_before_month (y m : Z) : Z :=
  days_before_month_aux y (Z.to_nat (m - 1)).

(** [d.toordinal()] *)
Definition toordinal (d : datetime) : Z :=
  days_before_year (year d) + days_before_month (year d) (month d) + day d.

(** Microseconds since the start of the proleptic calendar; the difference
    of two of them is the [timedelta] between the two timestamps. *)
Definition to_micros (d : datetime) : Z :=
  ((toordinal d * 86400 + hour d * 3600 + minute d * 60 + second d) * 1000000)
  + microsecond d.

(** [(a - b).total_seconds() > t] for an int [t], compared in whole
    microseconds: the rounding of the quotient by [10^6] to binary64 cannot
    cross an integer as small as a timeout in seconds (the code's is 30). *)
Definition elapsed_gt (a b : datetime) (t : Z) : bool :=
  t * 1000000 <? to_micros a - to_micros b.

(** *** The ISO 8601 text of a timestamp *)

Definition digit_char (n : Z) : ascii := ascii_of_nat (48 + Z.to_nat n).

(** [n] written on exactly [w] decimal digits, most significant first. *)
Fixpoint zfill (w : nat) (n : Z) : string :=
  match w with
  | O => EmptyString
  | S w' => String (digit_char ((n / 10 ^ Z.of_nat w') mod 10)) (zfill w' n)
  end.

(** [d.isoformat()]: the fraction is printed only when it is not zero. *)
Definition isoformat (d : datetime) : string :=
  (zfill 4 (year d) ++ "-" ++ zfill 2 (month d) ++ "-" ++ zfill 2 (day d) ++
   "T" ++ zfill 2 (hour d) ++ ":" ++ zfill 2 (minute d) ++ ":" ++
   zfill 2 (second d) ++
   (if (microsecond d =? 0)%Z then "" else "." ++ zfill 6 (microsecond d)))%string.

Definition digit_val (c : ascii) : option Z :=
  let n := nat_of_ascii c in
  if ((48 <=? n) && (n <=? 57))%nat then Some (Z.of_nat (n - 48)) else None.

(** Reads exactly [w] decimal digits. *)
Fixpoint read_digits (w : nat) (acc : Z) (s : string) : option (Z * string) :=
  match w with
  | O => Some (acc, s)
  | S w' =>
      match s with
      | EmptyString => None
      | String c s' =>
          match digit_val c with
          | Some v => read_digits w' (acc * 10 + v) s'
          | None => None
          end
      end
  end.

Definition expect (c : ascii) (s : string) : option string :=
  match s with
  | String c' s' => if Ascii.eqb c c' then Some s' else None
  | EmptyString => None
  end.

Definition parse_date (s : string) : option (Z * Z * Z * string) :=
  '(y, s) ← read_digits 4 0 s;
  s ← expect "-" s;
  '(m, s) ← read_digits 2 0 s;
  s ← expect "-" s;
  '(d, s) ← read_digits 2 0 s;
  Some (y, m, d, s).

Definition parse_fraction (s : string) : option Z :=
  if (String.length s =? 3)%nat then
    '(f, _) ← read_digits 3 0 s; Some (f * 1000)
  else if (String.length s =? 6)%nat then
    '(f, _) ← read_digits 6 0 s; Some f
  else None.

(** [HH[:MM[:SS[.fff[fff]]]]] *)
Definition parse_time (s : string) : option (Z * Z * Z * Z) :=
  '(h, s) ← read_digits 2 0 s;
  match s with
  | EmptyString => Some (h, 0, 0, 0)
  | _ =>
      s ← expect ":" s;
      '(mi, s) ← read_digits 2 0 s;
      match s with
      | EmptyString => Some (h, mi, 0, 0)
      | _ =>
          s ← expect ":" s;
          '(se, s) ← read_digits 2 0 s;
          match s with
          | EmptyString => Some (h, mi, se, 0)
          | _ => s ← expect "." s; f ← parse_fraction s; Some (h, mi, se, f)
          end
      end
  end.

(** [datetime.fromisoformat(s)] on the texts of naive timestamps,
    [YYYY-MM-DD[*HH[:MM[:SS[.fff[fff]]]]]]; [None] stands for the
    [ValueError] of a text that is not one or of a field out of range. *)
Definition fromisoformat (s : string) : option datetime :=
  '(y, m, d, s) ← parse_date s;
  '(h, mi, se, f) ← match s with
                    | EmptyString => Some (0, 0, 0, 0)
                    | String _ s' => parse_time s'
                    end;
  let t := Datetime y m d h mi se f in
  if wf_datetime t then Some t else None.

(** ** Dynamically typed values *)

(** The exceptions the modelled code can raise. [Untyped] marks a value
    whose run-time type is not the annotated one: the dataclass would
    store it unchecked, the typed record cannot. *)
Inductive exn := TypeError | ValueError | AttributeError | Untyped.

(** Values found in the dictionaries built from and for the wire. *)
Inductive pyval :=
| VNone
| VStr (s : string)
| VInt (n : Z)
| VFloat (x : float)
| VDatetime (d : datetime).

(** Code that can raise returns [inl e] for the exception [e]. *)
Definition bind {A B} (m : exn + A) (f : A -> exn + B) : exn + B :=
  match m with inl e => inl e | inr a => f a end.

Notation "'let!' x ':=' m 'in' k" := (bind m (fun x => k))
  (at level 10, x name, m at level 100, k at level 200).

(** ** [TradeSignal] *)

Inductive TradeAction := BUY | SELL | CLOSE | MODIFY.

(** [TradeAction(v)], the enumeration member whose value is [v]; [None]
    stands for the [ValueError] of a string that is no member's value. *)
Definition TradeAction_of_value (v : string) : option TradeAction :=
  if String.eqb v "BUY" then Some BUY
  else if String.eqb v "SELL" then Some SELL
  else if String.eqb v "CLOSE" then Some CLOSE
  else if String.eqb v "MODIFY" then Some MODIFY
  else None.

(** The dataclass after [__post_init__]: by then [timestamp] and
    [signal_id] are set. *)
Record TradeSignal := {
  symbol : string;
  action : string;
  broker : string;
  lot_size : float;
  stop_loss : option float;
  take_profit : option float;
  comment : string;
  timestamp : datetime;
  signal_id : string
}.

Section Construction.

(** What [datetime.now()] returns when the signal is built, and
    [int(t.timestamp())], which depends on the local time zone. *)
Variable now : datetime.
Variable posix_seconds : datetime -> Z.

(** [TradeSignal(...)]: [__init__] followed by [__post_init__] *)
Definition new_signal (symbol action broker : string) (lot_size : float)
    (stop_loss take_profit : option float) (comment : string)
    (timestamp : option datetime) (signal_id : option string) : TradeSignal :=
  let timestamp := match timestamp with Some t => t | None => now end in
  let signal_id :=
    match signal_id with
    | Some i => i
    | None =>
        (symbol ++ "_" ++ action ++ "_" ++
         Py.str_of_int (posix_seconds timestamp))%string
    end in
  Build_TradeSignal symbol action broker lot_size stop_loss take_profit
    comment timestamp signal_id.

Definition field_names : gset string :=
  list_to_set ["symbol"; "action"; "broker"; "lot_size"; "stop_loss";
               "take_profit"; "comment"; "timestamp"; "signal_id"]%string.

(** A keyword argument without default: absent is a [TypeError]. *)
Definition required_str (data : gmap string pyval) (k : string) : exn + string :=
  match data !! k with
  | None => inl TypeError
  | Some (VStr v) => inr v
  | Some _ => inl Untyped
  end.

Definition required_float (data : gmap string pyval) (k : string) : exn + float :=
  match data !! k with
  | None => inl TypeError
  | Some (VFloat v) => inr v
  | Some _ => inl Untyped
  end.

(** Keyword arguments with a default. *)
Definition optional_float (data : gmap string pyval) (k : string) : exn + option float :=
  match data !! k with
  | None | Some VNone => inr None
  | Some (VFloat v) => inr (Some v)
  | Some _ => inl Untyped
  end.

Definition optional_str (data : gmap string pyval) (k : string) : exn + option string :=
  match data !! k with
  | None | Some VNone => inr None
  | Some (VStr v) => inr (Some v)
  | Some _ => inl Untyped
  end.

Definition optional_datetime (data : gmap string pyval) (k : string) : exn + option datetime :=
  match data !! k with
  | None | Some VNone => inr None
  | Some (VDatetime v) => inr (Some v)
  | Some _ => inl Untyped
  end.

(** The constructor called with the dictionary as keyword arguments: an
    unknown keyword is a [TypeError]. *)
Definition from_kwargs (data : gmap string pyval) : exn + TradeSignal :=
  if bool_decide (dom data ⊆ field_names) then
    let! symbol := required_str data "symbol" in
    let! action := required_str data "action" in
    let! broker := required_str data "broker" in
    let! lot_size := required_float data "lot_size" in
    let! stop_loss := optional_float data "stop_loss" in
    let! take_profit := optional_float data "take_profit" in
    let! comment := match data !! "comment" with
                    | None => inr EmptyString
                    | Some (VStr v) => inr v
                    | Some _ => inl Untyped
                    end in
    let! timestamp := optional_datetime data "timestamp" in
    let! signal_id := optional_str data "signal_id" in
    inr (new_signal symbol action broker lot_size stop_loss take_profit
           comment timestamp signal_id)
  else inl TypeError.

(** [TradeSignal.from_dict(data)] *)
Definition from_dict (data : gmap string pyval) : exn + TradeSignal :=
  let! data :=
    match data !! "timestamp" with
    | Some (VStr t) =>
        match fromisoformat t with
        | Some d => inr (<["timestamp" := VDatetime d]> data)
        | None => inl ValueError
        end
    | _ => inr data
    end in
  from_kwargs data.

End Construction.

Definition of_option (o : option float) : pyval :=
  match o with Some x => VFloat x | None => VNone end.

(** [signal.to_dict()]: [asdict], with the timestamp replaced by its ISO
    text. *)
Definition to_dict (s : TradeSignal) : gmap string pyval :=
  list_to_map
    [("symbol", VStr (symbol s)); ("action", VStr (action s));
     ("broker", VStr (broker s)); ("lot_size", VFloat (lot_size s));
     ("stop_loss", of_option (stop_loss s));
     ("take_profit", of_option (take_profit s));
     ("comment", VStr (comment s));
     ("timestamp", VStr (isoformat (timestamp s)));
     ("signal_id", VStr (signal_id s))]%string.

(** [signal.validate()], returning [(is_valid, error_message)] *)
Definition validate (s : TradeSignal) : bool * option string :=
  if negb (Py.truthy_str (symbol s)) || (String.length (symbol s) <? 3)%nat then
    (false, Some "Invalid symbol"%string)
  else
    match TradeAction_of_value (Py.upper (action s)) with
    | None => (false, Some ("Invalid action: " ++ action s)%string)
    | Some _ =>
        if (lot_size s <=? 0)%float then
          (false, Some "Lot size must be positive"%string)
        else if match stop_loss s with
                | Some sl => (sl <=? 0)%float
                | None => false
                end then
          (false, Some "Stop loss must be positive"%string)
        else if match take_profit s with
                | Some tp => (tp <=? 0)%float
                | None => false
                end then
          (false, Some "Take profit must be positive"%string)
        else if String.eqb (Py.upper (action s)) "BUY"
                && Py.truthy_opt (stop_loss s) && Py.truthy_opt (take_profit s)
                && match stop_loss s, take_profit s with
                   | Some sl, Some tp => Py.geb sl tp
                   | _, _ => false
                   end then
          (false, Some "Stop loss must be less than take profit for BUY"%string)
        else if String.eqb (Py.upper (action s)) "SELL"
                && Py.truthy_opt (stop_loss s) && Py.truthy_opt (take_profit s)
                && match stop_loss s, take_profit s with
                   | Some sl, Some tp => (sl <=? tp)%float
                   | _, _ => false
                   end then
          (false, Some "Stop loss must be greater than take profit for SELL"%string)
        else (true, None)
    end.

Section Json.

(** [json.dumps] and [json.loads] restricted to these dictionaries: library
    functions, taken as parameters. *)
Variable dumps : gmap string pyval -> string.
Variable loads : string -> exn + gmap string pyval.
Variable now : datetime.
Variable posix_seconds : datetime -> Z.

(** [signal.to_json()] *)
Definition to_json (s : TradeSignal) : string := dumps (to_dict s).

(** [TradeSignal.from_json(json_str)] *)
Definition from_json (json_str : string) : exn + TradeSignal :=
  let! data := loads json_str in
  from_dict now posix_seconds data.

End Json.

(** ** [SignalManager] *)

Record SignalManager := {
  queue : list TradeSignal;
  history : list TradeSignal;
  max_queue_size : Z;
  max_history : Z;
  processed_signals : gset string
}.

(** [SignalManager(max_queue_size, max_history)] *)
Definition SignalManager_init (max_queue_size max_history : Z) : SignalManager :=
  {| queue := []; history := [];
     max_queue_size := max_queue_size; max_history := max_history;
     processed_signals := ∅ |}.

(** [manager.add_signal(signal)], returning [(success, error_message)] *)
Definition add_signal (m : SignalManager) (s : TradeSignal)
  : (bool * option string) * SignalManager :=
  let '(is_valid, error) := validate s in
  if negb is_valid then ((false, error), m)
  else if bool_decide (signal_id s ∈ processed_signals m) then
    ((false, Some "Duplicate signal"%string), m)
  else if max_queue_size m <=? Z.of_nat (length (queue m)) then
    ((false, Some "Queue is full"%string), m)
  else
    ((true, None),
     {| queue := queue m ++ [s];
        history := history m;
        max_queue_size := max_queue_size m;
        max_history := max_history m;
        processed_signals := processed_signals m ∪ {[signal_id s]} |}).

(** [manager.get_signals(count)] *)
Definition get_signals (m : SignalManager) (count : option Z)
  : list TradeSignal * SignalManager :=
  let '(signals, rest) :=
    match count with
    | None => (queue m, [])
    | Some c => (Py.slice_to (queue m) c, Py.slice_from (queue m) c)
    end in
  let extended := history m ++ signals in
  let trimmed :=
    if max_history m <? Z.of_nat (length extended)
    then Py.slice_from extended (- max_history m)
    else extended in
  (signals,
   {| queue := rest;
      history := trimmed;
      max_queue_size := max_queue_size m;
      max_history := max_history m;
      processed_signals := processed_signals m |}).

(** [manager.get_queue_size()] *)
Definition get_queue_size (m : SignalManager) : nat := length (queue m).

(** [manager.clear_queue()] *)
Definition clear_queue (m : SignalManager) : SignalManager :=
  {| queue := [];
     history := history m;
     max_queue_size := max_queue_size m;
     max_history := max_history m;
     processed_signals := processed_signals m |}.

(** [manager.get_history(limit)] *)
Definition get_history (m : SignalManager) (limit : option Z) : list TradeSignal :=
  match limit with
  | None => history m
  | Some l => if 0 <? l then Py.slice_from (history m) (- l) else []
  end.

(** [manager.get_signal_by_id(signal_id)] *)
Definition get_signal_by_id (m : SignalManager) (id : string) : option TradeSignal :=
  List.find (fun s => String.eqb (signal_id s) id) (rev (history m)).

(** *** Sequences of store operations *)

Inductive op :=
| Add (s : TradeSignal)
| Take (count : option Z)
| Clear
| History (limit : option Z)
| Find (id : string)
| Size.

Inductive outcome :=
| Added (r : bool * option string)
| Taken (signals : list TradeSignal)
| Cleared
| Listed (signals : list TradeSignal)
| Found (s : option TradeSignal)
| Sized (n : nat).

Definition step (m : SignalManager) (o : op) : outcome * SignalManager :=
  match o with
  | Add s => let '(r, m') := add_signal m s in (Added r, m')
  | Take count => let '(l, m') := get_signals m count in (Taken l, m')
  | Clear => (Cleared, clear_queue m)
  | History limit => (Listed (get_history m limit), m)
  | Find id => (Found (get_signal_by_id m id), m)
  | Size => (Sized (get_queue_size m), m)
  end.

(** The store after the operations [ops], performed from left to right. *)
Definition run (m : SignalManager) (ops : list op) : SignalManager :=
  fold_left (fun m o => snd (step m o)) ops m.

(** ** [MQL5Bridge]: session state, request dispatch, heartbeat monitor

    The socket and its context are not modelled: [_process_request] is the
    function from a parsed request to a response that [_run] calls between
    a receive and a send. *)

Record Stats := {
  signals_sent : Z;
  signals_received : Z;
  errors : Z;
  reconnections : Z
}.

Record MQL5Bridge := {
  running : bool;
  signal_manager : SignalManager;
  connection_status : string;
  last_heartbeat : option datetime;
  heartbeat_timeout : Z;
  stats : Stats
}.

(** [MQL5Bridge()] *)
Definition MQL5Bridge_init : MQL5Bridge :=
  {| running := false;
     signal_manager := SignalManager_init 1000 10000;
     connection_status := "disconnected";
     last_heartbeat := None;
     heartbeat_timeout := 30;
     stats := {| signals_sent := 0; signals_received := 0;
                 errors := 0; reconnections := 0 |} |}.

(** The records handed to the logger; elapsed time is kept in
    microseconds instead of its one-decimal text. *)
Inductive log_record :=
| Info_sending (n : nat)
| Debug_status (status message : pyval)
| Warning_unknown_action (a : string)
| Warning_connection_lost (elapsed : Z).

Inductive response :=
| Signals_response (signals : list (gmap string pyval)) (queue_size : nat)
| Ok_response
| Heartbeat_response (timestamp : string) (queue_size : nat)
| Status_response (connection_status : string) (queue_size : nat)
    (stats : Stats) (last_heartbeat : option string)
| Error_response (message : string).

(** [request.get(k, default)] *)
Definition get_default (request : gmap string pyval) (k : string) (d : pyval) : pyval :=
  match request !! k with Some v => v | None => d end.

Section Dispatch.

(** The successive readings of [datetime.now()] during one call. *)
Variable now : nat -> datetime.

(** [bridge._process_request(request)] *)
Definition _process_request (b : MQL5Bridge) (request : gmap string pyval)
  : exn + (response * MQL5Bridge * list log_record) :=
  let! action := match get_default request "action" (VStr "") with
                 | VStr a => inr (Py.upper a)
                 | _ => inl AttributeError
                 end in
  if String.eqb action "GET_SIGNALS" then
    let! count := match get_default request "count" VNone with
                  | VNone => inr None
                  | VInt c => inr (Some c)
                  | _ => inl TypeError
                  end in
    let '(signals, m) := get_signals (signal_manager b) count in
    inr (Signals_response (map to_dict signals) (get_queue_size m),
         {| running := running b;
            signal_manager := m;
            connection_status := connection_status b;
            last_heartbeat := last_heartbeat b;
            heartbeat_timeout := heartbeat_timeout b;
            stats := {| signals_sent :=
                          signals_sent (stats b) + Z.of_nat (length signals);
                        signals_received := signals_received (stats b);
                        errors := errors (stats b);
                        reconnections := reconnections (stats b) |} |},
         [Info_sending (length signals)])
  else if String.eqb action "SEND_STATUS" then
    inr (Ok_response,
         {| running := running b;
            signal_manager := signal_manager b;
            connection_status := "connected";
            last_heartbeat := Some (now 0%nat);
            heartbeat_timeout := heartbeat_timeout b;
            stats := stats b |},
         [Debug_status (get_default request "status" (VStr ""))
                       (get_default request "message" (VStr ""))])
  else if String.eqb action "HEARTBEAT" then
    inr (Heartbeat_response (isoformat (now 1%nat))
           (get_queue_size (signal_manager b)),
         {| running := running b;
            signal_manager := signal_manager b;
            connection_status := "connected";
            last_heartbeat := Some (now 0%nat);
            heartbeat_timeout := heartbeat_timeout b;
            stats := stats b |},
         [])
  else if String.eqb action "GET_BRIDGE_STATUS" then
    inr (Status_response (connection_status b)
           (get_queue_size (signal_manager b)) (stats b)
           (option_map isoformat (last_heartbeat b)),
         b, [])
  else
    inr (Error_response ("Unknown action: " ++ action)%string,
         b, [Warning_unknown_action action]).

End Dispatch.

(** One pass of the body of the loop of [_monitor_heartbeat], run when the
    clock reads [now]. *)
Definition monitor_poll (now : datetime) (b : MQL5Bridge)
  : MQL5Bridge * list log_record :=
  match last_heartbeat b with
  | Some t =>
      if elapsed_gt now t (heartbeat_timeout b) then
        ({| running := running b;
            signal_manager := signal_manager b;
            connection_status := "disconnected";
            last_heartbeat := last_heartbeat b;
            heartbeat_timeout := heartbeat_timeout b;
            stats := stats b |},
         [Warning_connection_lost (to_micros now - to_micros t)])
      else (b, [])
  | None => (b, [])
  end.

(** [bridge._monitor_heartbeat()] over the clock readings of its
    successive wake-ups: the loop goes on while [running] holds. *)
Fixpoint _monitor_heartbeat (ticks : list datetime) (b : MQL5Bridge)
  : MQL5Bridge * list log_record :=
  match ticks with
  | [] => (b, [])
  | t :: ticks' =>
      if running b then
        let '(b1, l1) := monitor_poll t b in
        let '(b2, l2) := _monitor_heartbeat ticks' b1 in
        (b2, l1 ++ l2)
      else (b, [])
  end.

(** The assignments of [bridge.start()] once the socket is bound. *)
Definition started (b : MQL5Bridge) : MQL5Bridge :=
  {| running := true;
     signal_manager := signal_manager b;
     connection_status := "listening";
     last_heartbeat := last_heartbeat b;
     heartbeat_timeout := heartbeat_timeout b;
     stats := stats b |}.

(** ** [MQL5Bridge]: the local API and the request loop *)

(** The records [send_signal] hands to the logger. *)
Inductive send_log :=
| Info_signal_queued (action symbol broker : string)
| Warning_queue_failed (error : option string).

(** [bridge.send_signal(signal)], returning [(success, error_message)] *)
Definition send_signal (b : MQL5Bridge) (s : TradeSignal)
  : (bool * option string) * MQL5Bridge * list send_log :=
  let '((success, error), m) := add_signal (signal_manager b) s in
  ((success, error),
   {| running := running b;
      signal_manager := m;
      connection_status := connection_status b;
      last_heartbeat := last_heartbeat b;
      heartbeat_timeout := heartbeat_timeout b;
      stats := stats b |},
   if success
   then [Info_signal_queued (action s) (symbol s) (broker s)]
   else [Warning_queue_failed error]).

(** [bridge.stop()], without the closing of the socket and its context *)
Definition stop (b : MQL5Bridge) : MQL5Bridge :=
  {| running := false;
     signal_manager := signal_manager b;
     connection_status := "stopped";
     last_heartbeat := last_heartbeat b;
     heartbeat_timeout := heartbeat_timeout b;
     stats := stats b |}.

(** The dictionary returned by [bridge.get_status()]. *)
Record status_report := {
  report_connection_status : string;
  report_queue_size : nat;
  report_stats : Stats;
  report_last_heartbeat : option string
}.

(** [bridge.get_status()] *)
Definition get_status (b : MQL5Bridge) : status_report :=
  {| report_connection_status := connection_status b;
     report_queue_size := get_queue_size (signal_manager b);
     report_stats := stats b;
     report_last_heartbeat := option_map isoformat (last_heartbeat b) |}.

(** What [json.loads] makes of a received text: a [JSONDecodeError], a
    JSON object, or a JSON value that is no object (and so has no [get]). *)
Inductive json_parse :=
| Decode_error
| Decoded_object (request : gmap string pyval)
| Decoded_other.

(** The records [_run] hands to the logger, those of the dispatcher
    included. *)
Inductive run_log :=
| Request_log (l : log_record)
| Error_invalid_json
| Error_bridge (e : exn).

Section Loop.

(** [json.loads] on the received texts and [str(e)] on the exceptions
    caught: library functions, taken as parameters. *)
Variable loads : string -> json_parse.
Variable str_of_exn : exn -> string.

(** [self.stats['errors'] += 1] *)
Definition count_error (b : MQL5Bridge) : MQL5Bridge :=
  {| running := running b;
     signal_manager := signal_manager b;
     connection_status := connection_status b;
     last_heartbeat := last_heartbeat b;
     heartbeat_timeout := heartbeat_timeout b;
     stats := {| signals_sent := signals_sent (stats b);
                 signals_received := signals_received (stats b);
                 errors := errors (stats b) + 1;
                 reconnections := reconnections (stats b) |} |}.

(** One pass of the body of the loop of [_run]: [received] is the text
    received, or [None] when nothing was waiting ([zmq.Again]); the result
    lists the responses sent. *)
Definition run_iteration (now : nat -> datetime) (b : MQL5Bridge)
    (received : option string) : MQL5Bridge * list response * list run_log :=
  match received with
  | None => (b, [], [])
  | Some message =>
      match loads message with
      | Decode_error => (b, [Error_response "Invalid JSON"], [Error_invalid_json])
      | parsed =>
          match
            match parsed with
            | Decoded_object request => _process_request now b request
            | _ => inl AttributeError
            end
          with
          | inr (resp, b', logs) => (b', [resp], map Request_log logs)
          | inl e =>
              (count_error b,
               if running b then [Error_response (str_of_exn e)] else [],
               [Error_bridge e])
          end
      end
  end.

(** [bridge._run()] over what its successive receives return, each with
    the clock of its pass: the loop goes on while [running] holds. *)
Fixpoint _run (inputs : list ((nat -> datetime) * option string)) (b : MQL5Bridge)
  : MQL5Bridge * list response * list run_log :=
  match inputs with
  | [] => (b, [], [])
  | (now, received) :: inputs' =>
      if running b then
        let '(b1, r1, l1) := run_iteration now b received in
        let '(b2, r2, l2) := _run inputs' b1 in
        (b2, r1 ++ r2, l1 ++ l2)
      else (b, [], [])
  end.

End Loop.

(** ** Sample data *)

Module Sample.

(** [int(t.timestamp())] on a host whose local time is UTC. *)
Definition utc_seconds (t : datetime) : Z :=
  (toordinal t - 719163) * 86400 + hour t * 3600 + minute t * 60 + second t.

Definition t0 : datetime := Datetime 2024 1 15 10 30 0 0.
Definition t1 : datetime := Datetime 2024 1 15 10 30 1 250000.

Definition eurusd_buy : TradeSignal :=
  new_signal t0 utc_seconds "EURUSD" "BUY" "exness" 0.5%float
    (Some 1.0625%float) (Some 1.125%float) "" None None.

Definition gbpusd_sell : TradeSignal :=
  new_signal t1 utc_seconds "GBPUSD" "sell" "exness" 0.25%float
    (Some 1.5%float) (Some 1.25%float) "breakout" None None.

Definition usdjpy_close : TradeSignal :=
  new_signal t1 utc_seconds "USDJPY" "CLOSE" "exness" 1%float
    None None "" (Some t1) (Some "close-7"%string).

(** A BUY whose stop loss is above its take profit. *)
Definition crossed_buy : TradeSignal :=
  new_signal t0 utc_seconds "EURUSD" "Buy" "exness" 0.5%float
    (Some 1.125%float) (Some 1.0625%float) "" None None.

(** A SELL whose stop loss equals its take profit. *)
Definition crossed_sell : TradeSignal :=
  new_signal t0 utc_seconds "EURUSD" "SELL" "exness" 0.5%float
    (Some 1.25%float) (Some 1.25%float) "" None None.

(** The clock of a call started at [t]. *)
Definition clock_at (t : datetime) : nat -> datetime := fun _ => t.

Definition heartbeat_request : gmap string pyval :=
  {[ "action"%string := VStr "heartbeat" ]}.

Definition get_signals_request : gmap string pyval :=
  {[ "action"%string := VStr "GET_SIGNALS" ]}.

Definition bridge_status_request : gmap string pyval :=
  {[ "action"%string := VStr "GET_BRIDGE_STATUS" ]}.

(** A running bridge whose peer sent a heartbeat when the clock read [t]. *)
Definition connected_at (t : datetime) : MQL5Bridge :=
  match _process_request (clock_at t) (started MQL5Bridge_init) heartbeat_request with
  | inr (_, b, _) => b
  | inl _ => started MQL5Bridge_init
  end.

Definition t0_plus_31s : datetime := Datetime 2024 1 15 10 30 31 0.
Definition t0_plus_36s : datetime := Datetime 2024 1 15 10 30 36 0.
Definition t0_plus_41s : datetime := Datetime 2024 1 15 10 30 41 0.

End Sample.

(** * Properties *)

(** ** Evaluating the model *)

Example isoformat_whole_second :
  isoformat (Datetime 2024 3 9 7 5 0 0) = "2024-03-09T07:05:00"%string.
Proof. reflexivity. Qed.

Example isoformat_fraction :
  isoformat (Datetime 2024 12 31 23 59 59 1500) = "2024-12-31T23:59:59.001500"%string.
Proof. reflexivity. Qed.

Example fromisoformat_fraction :
  fromisoformat "2024-12-31T23:59:59.001500" = Some (Datetime 2024 12 31 23 59 59 1500).
Proof. reflexivity. Qed.

Example fromisoformat_millis :
  fromisoformat "2024-12-31 23:59:59.250" = Some (Datetime 2024 12 31 23 59 59 250000).
Proof. reflexivity. Qed.

Example fromisoformat_bad_day : fromisoformat "2023-02-29T00:00:00" = None.
Proof. reflexivity. Qed.

Example toordinal_epoch : toordinal (Datetime 1970 1 1 0 0 0 0) = 719163.
Proof. reflexivity. Qed.

Example eurusd_buy_id : signal_id Sample.eurusd_buy = "EURUSD_BUY_1705314600"%string.
Proof. reflexivity. Qed.

Example validate_eurusd_buy : validate Sample.eurusd_buy = (true, None).
Proof. vm_compute. reflexivity. Qed.

Example validate_gbpusd_sell : validate Sample.gbpusd_sell = (true, None).
Proof. vm_compute. reflexivity. Qed.

Example validate_crossed_buy :
  validate Sample.crossed_buy
  = (false, Some "Stop loss must be less than take profit for BUY"%string).
Proof. vm_compute. reflexivity. Qed.

Example slices_negative :
  Py.slice_to [1; 2; 3; 4] (-1) = [1; 2; 3] /\ Py.slice_from [1; 2; 3; 4] (-1) = [4]
  /\ Py.slice_to [1; 2; 3; 4] (-9) = [] /\ Py.slice_from [1; 2; 3; 4] (-9) = [1; 2; 3; 4]
  /\ Py.slice_to [1; 2; 3; 4] 9 = [1; 2; 3; 4] /\ Py.slice_from [1; 2; 3; 4] 9 = [].
Proof. repeat split; reflexivity. Qed.

(** ** Slices *)

Section Slices.

Context {A : Type}.
Implicit Types (l : list A) (k : Z).

Lemma slice_to_from l k : Py.slice_to l k ++ Py.slice_from l k = l.
Proof. apply firstn_skipn. Qed.

Lemma slice_to_nonneg l k : 0 <= k -> Py.slice_to l k = firstn (Z.to_nat k) l.
Proof.
  intros Hk. unfold Py.slice_to, Py.slice_index.
  destruct (Z.ltb_spec k 0); [lia | reflexivity].
Qed.

Lemma slice_from_nonneg l k : 0 <= k -> Py.slice_from l k = skipn (Z.to_nat k) l.
Proof.
  intros Hk. unfold Py.slice_from, Py.slice_index.
  destruct (Z.ltb_spec k 0); [lia | reflexivity].
Qed.

(** [l[-n:]] for a positive [n] below the length: the last [n] entries. *)
Lemma slice_from_last l n :
  0 < n < Z.of_nat (length l) ->
  exists front, l = front ++ Py.slice_from l (- n)
                /\ Z.of_nat (length (Py.slice_from l (- n))) = n.
Proof.
  intros Hn. unfold Py.slice_from, Py.slice_index.
  destruct (Z.ltb_spec (- n) 0); [| lia].
  exists (firstn (Z.to_nat (Z.of_nat (length l) + - n)) l). split.
  - symmetry. apply firstn_skipn.
  - rewrite length_skipn. lia.
Qed.

Lemma slice_from_suffix l k : exists front, l = front ++ Py.slice_from l k.
Proof. exists (Py.slice_to l k). symmetry. apply slice_to_from. Qed.

End Slices.

(** ** The store: admission *)

Lemma validate_reason (s : TradeSignal) :
  fst (validate s) = false -> exists reason, snd (validate s) = Some reason.
Proof.
  unfold validate.
  repeat match goal with
         | |- context [if ?c then _ else _] => destruct c
         | |- context [match ?c with Some _ => _ | None => _ end] => destruct c
         end; cbn; intros; try discriminate; eauto.
Qed.

(** Whatever is rejected leaves the store as it was, with a reason. *)
Lemma add_signal_rejected (m : SignalManager) (s : TradeSignal) :
  fst (fst (add_signal m s)) = false ->
  snd (add_signal m s) = m /\ exists reason, snd (fst (add_signal m s)) = Some reason.
Proof.
  unfold add_signal. pose proof (validate_reason s) as Hr.
  destruct (validate s) as [[] error]; cbn in *.
  - destruct (bool_decide _); cbn; [eauto |].
    destruct (_ <=? _); cbn; [eauto | discriminate].
  - intros _. split; [reflexivity | auto].
Qed.

(** The two ways [add_signal] can leave the store. *)
Lemma add_signal_cases (m : SignalManager) (s : TradeSignal) :
  snd (add_signal m s) = m
  \/ ((signal_id s ∉ processed_signals m)
      /\ snd (add_signal m s)
         = {| queue := queue m ++ [s];
              history := history m;
              max_queue_size := max_queue_size m;
              max_history := max_history m;
              processed_signals := processed_signals m ∪ {[signal_id s]} |}).
Proof.
  unfold add_signal. destruct (validate s) as [[] error]; cbn; [| auto].
  destruct (bool_decide_reflect (signal_id s ∈ processed_signals m)); [auto |].
  destruct (_ <=? _); cbn; auto.
Qed.

(** A signal whose id is in the dedup set is rejected, valid or not. *)
Lemma add_signal_seen (m : SignalManager) (s : TradeSignal) :
  signal_id s ∈ processed_signals m ->
  exists reason, add_signal m s = ((false, Some reason), m).
Proof.
  intros Hin. unfold add_signal. pose proof (validate_reason s) as Hr.
  destruct (validate s) as [[] error]; cbn in *.
  - rewrite bool_decide_eq_true_2 by exact Hin. eauto.
  - destruct (Hr eq_refl) as [reason ->]. eauto.
Qed.

(** C1. [add_signal] rejects on a validation failure first (with the reason
    of [validate]), then on an id already in the dedup set, then on a full
    pending queue; every rejection returns [(False, reason)] and leaves
    queue, history and dedup set as they were; otherwise it returns
    [(True, None)], appends the signal to the end of the queue and adds its
    id to the dedup set. *)
Theorem add_signal_priority (m : SignalManager) (s : TradeSignal) :
  (fst (validate s) = false ->
     exists reason, validate s = (false, Some reason)
                    /\ add_signal m s = ((false, Some reason), m))
  /\ (fst (validate s) = true -> signal_id s ∈ processed_signals m ->
     add_signal m s = ((false, Some "Duplicate signal"%string), m))
  /\ (fst (validate s) = true -> signal_id s ∉ processed_signals m ->
     max_queue_size m <= Z.of_nat (length (queue m)) ->
     add_signal m s = ((false, Some "Queue is full"%string), m))
  /\ (fst (validate s) = true -> signal_id s ∉ processed_signals m ->
     Z.of_nat (length (queue m)) < max_queue_size m ->
     fst (add_signal m s) = (true, None)
     /\ queue (snd (add_signal m s)) = queue m ++ [s]
     /\ history (snd (add_signal m s)) = history m
     /\ processed_signals (snd (add_signal m s)) = processed_signals m ∪ {[signal_id s]}
     /\ max_queue_size (snd (add_signal m s)) = max_queue_size m
     /\ max_history (snd (add_signal m s)) = max_history m)
  /\ (fst (fst (add_signal m s)) = false -> snd (add_signal m s) = m).
Proof.
  split; [| split; [| split; [| split]]].
  - intros Hv. destruct (validate_reason s Hv) as [reason Hr].
    exists reason. unfold add_signal.
    destruct (validate s) as [valid error]; cbn in *; subst. auto.
  - intros Hv Hin. unfold add_signal.
    destruct (validate s) as [valid error]; cbn in *; subst; cbn.
    rewrite bool_decide_eq_true_2; auto.
  - intros Hv Hin Hfull. unfold add_signal.
    destruct (validate s) as [valid error]; cbn in *; subst; cbn.
    rewrite bool_decide_eq_false_2 by auto.
    destruct (Z.leb_spec (max_queue_size m) (Z.of_nat (length (queue m)))); [auto | lia].
  - intros Hv Hin Hroom. unfold add_signal.
    destruct (validate s) as [valid error]; cbn in *; subst; cbn.
    rewrite bool_decide_eq_false_2 by auto.
    destruct (Z.leb_spec (max_queue_size m) (Z.of_nat (length (queue m)))); [lia |].
    cbn. repeat split.
  - intros Hrej. apply add_signal_rejected, Hrej.
Qed.

Lemma add_signal_priority_witness :
  let m := run (SignalManager_init 1000 10000) [Add Sample.eurusd_buy] in
  add_signal m Sample.eurusd_buy = ((false, Some "Duplicate signal"%string), m).
Proof.
  intros m.
  apply (proj1 (proj2 (add_signal_priority m Sample.eurusd_buy))).
  - vm_compute. reflexivity.
  - apply (bool_decide_unpack _). vm_compute. exact I.
Defined.

(** ** The store: dequeueing *)

(** What [get_signals] leaves in the history: the old history followed by
    the returned signals when that fits the cap, and the newest
    [max_history] entries of it when it does not fit a positive cap. *)
Lemma get_signals_history (m : SignalManager) (count : option Z) :
  let out := fst (get_signals m count) in
  let m' := snd (get_signals m count) in
  (Z.of_nat (length (history m ++ out)) <= max_history m ->
     history m' = history m ++ out)
  /\ (0 < max_history m < Z.of_nat (length (history m ++ out)) ->
     exists evicted, history m ++ out = evicted ++ history m'
                     /\ Z.of_nat (length (history m')) = max_history m).
Proof.
  unfold get_signals.
  destruct count as [c |]; cbn;
    match goal with
    | |- context [max_history m <? ?n] => destruct (Z.ltb_spec (max_history m) n)
    end;
    (split; [intros; (reflexivity || lia) | intros Hcap; try lia]);
    apply slice_from_last; lia.
Qed.

(** Whatever the cap, what [get_signals] drops from the history is a
    prefix of it: the oldest entries go first. *)
Lemma get_signals_evicts_oldest (m : SignalManager) (count : option Z) :
  exists evicted,
    history m ++ fst (get_signals m count)
    = evicted ++ history (snd (get_signals m count)).
Proof.
  unfold get_signals. destruct count as [c |]; cbn;
    match goal with |- context [if ?b then _ else _] => destruct b end;
    (apply slice_from_suffix || (exists []; reflexivity)).
Qed.

Lemma get_signals_partition (m : SignalManager) (count : option Z) :
  fst (get_signals m count) ++ queue (snd (get_signals m count)) = queue m.
Proof.
  unfold get_signals. destruct count as [c |]; cbn.
  - apply slice_to_from.
  - apply app_nil_r.
Qed.

(** C2, amended. For a count [k >= 0], [get_signals] returns exactly
    [min k (len queue)] signals, the first ones of the queue in order, and
    removes them from the queue; with [None] it returns and removes all of
    them. The returned signals are appended to the history in that order,
    after which a history longer than a positive cap keeps only its newest
    [max_history] entries. *)
Theorem get_signals_fifo (m : SignalManager) (count : option Z) :
  let out := fst (get_signals m count) in
  let m' := snd (get_signals m count) in
  (count = None -> out = queue m /\ queue m' = [])
  /\ (forall k, count = Some k -> 0 <= k ->
        out = firstn (Z.to_nat k) (queue m)
        /\ length out = Nat.min (Z.to_nat k) (length (queue m))
        /\ queue m' = skipn (Z.to_nat k) (queue m))
  /\ (Z.of_nat (length (history m ++ out)) <= max_history m ->
        history m' = history m ++ out)
  /\ (0 < max_history m < Z.of_nat (length (history m ++ out)) ->
        exists evicted, history m ++ out = evicted ++ history m'
                        /\ Z.of_nat (length (history m')) = max_history m).
Proof.
  cbv zeta. split; [| split].
  - intros ->. split; reflexivity.
  - intros k -> Hk. unfold get_signals; cbn.
    rewrite slice_to_nonneg, slice_from_nonneg by assumption.
    repeat split. apply length_firstn.
  - apply get_signals_history.
Qed.

Lemma get_signals_fifo_witness :
  let m := run (SignalManager_init 1000 10000)
             [Add Sample.eurusd_buy; Add Sample.gbpusd_sell; Add Sample.usdjpy_close] in
  fst (get_signals m (Some 2)) = firstn 2 (queue m)
  /\ length (fst (get_signals m (Some 2))) = 2%nat
  /\ queue (snd (get_signals m (Some 2))) = skipn 2 (queue m).
Proof.
  intros m.
  apply (proj1 (proj2 (get_signals_fifo m (Some 2))) 2); [reflexivity | lia].
Defined.

(** C2 as stated fails when the cap is smaller than what is returned: with
    a history cap of one and two pending signals, [get_signals(2)] returns
    both, but the history afterwards is not the old history followed by the
    two: the first of them is already evicted. *)
Lemma get_signals_fifo_counterexample :
  let m := run (SignalManager_init 1000 1)
             [Add Sample.eurusd_buy; Add Sample.gbpusd_sell] in
  fst (get_signals m (Some 2)) = [Sample.eurusd_buy; Sample.gbpusd_sell]
  /\ history (snd (get_signals m (Some 2))) = [Sample.gbpusd_sell]
  /\ history (snd (get_signals m (Some 2)))
     <> history m ++ fst (get_signals m (Some 2)).
Proof.
  cbv zeta. split; [| split].
  - vm_compute. reflexivity.
  - vm_compute. reflexivity.
  - intros H. apply (f_equal (@length _)) in H. vm_compute in H. discriminate.
Qed.

(** C10, amended. For every count, negative and out-of-range ones
    included, and for [None], the returned signals followed by the queue
    left behind are the queue before the call. The returned signals are
    appended to the history, after which a history longer than a positive
    cap keeps only its newest [max_history] entries. *)
Theorem get_signals_conserves (m : SignalManager) (count : option Z) :
  let out := fst (get_signals m count) in
  let m' := snd (get_signals m count) in
  out ++ queue m' = queue m
  /\ (Z.of_nat (length (history m ++ out)) <= max_history m ->
        history m' = history m ++ out)
  /\ (0 < max_history m < Z.of_nat (length (history m ++ out)) ->
        exists evicted, history m ++ out = evicted ++ history m'
                        /\ Z.of_nat (length (history m')) = max_history m).
Proof.
  cbv zeta. split.
  - apply get_signals_partition.
  - apply get_signals_history.
Qed.

Lemma get_signals_conserves_witness :
  let m := run (SignalManager_init 1000 10000)
             [Add Sample.eurusd_buy; Add Sample.gbpusd_sell; Add Sample.usdjpy_close] in
  history (snd (get_signals m (Some (-1))))
  = history m ++ fst (get_signals m (Some (-1))).
Proof.
  intros m.
  apply (proj1 (proj2 (get_signals_conserves m (Some (-1))))).
  apply Z.leb_le. vm_compute. reflexivity.
Defined.

(** C10 as stated fails on its history part: with a history cap of one,
    [get_signals(-1)] on three pending signals returns the first two and
    leaves the third, but only the second reaches the history kept. *)
Lemma get_signals_conserves_counterexample :
  let m := run (SignalManager_init 1000 1)
             [Add Sample.eurusd_buy; Add Sample.gbpusd_sell; Add Sample.usdjpy_close] in
  fst (get_signals m (Some (-1))) = [Sample.eurusd_buy; Sample.gbpusd_sell]
  /\ queue (snd (get_signals m (Some (-1)))) = [Sample.usdjpy_close]
  /\ ~ In Sample.eurusd_buy (history (snd (get_signals m (Some (-1))))).
Proof.
  cbv zeta. split; [| split].
  - vm_compute. reflexivity.
  - vm_compute. reflexivity.
  - intros H.
    assert (Hh : history (snd (get_signals
              (run (SignalManager_init 1000 1)
                 [Add Sample.eurusd_buy; Add Sample.gbpusd_sell; Add Sample.usdjpy_close])
              (Some (-1)))) = [Sample.gbpusd_sell]) by (vm_compute; reflexivity).
    rewrite Hh in H. destruct H as [H | []].
    apply (f_equal symbol) in H. vm_compute in H. discriminate.
Qed.

(** ** The store: history *)

Lemma step_max_history (m : SignalManager) (o : op) :
  max_history (snd (step m o)) = max_history m.
Proof.
  destruct o as [s | count | | limit | id |]; cbn; try reflexivity.
  - destruct (add_signal_cases m s) as [E | [_ E]].
    + destruct (add_signal m s); cbn in *. congruence.
    + destruct (add_signal m s); cbn in *. rewrite E. reflexivity.
  - unfold get_signals. destruct count; reflexivity.
Qed.

(** Under a positive cap, no operation makes the history longer than the
    cap. *)
Lemma step_history_bounded (m : SignalManager) (o : op) :
  0 < max_history m ->
  Z.of_nat (length (history m)) <= max_history m ->
  Z.of_nat (length (history (snd (step m o)))) <= max_history m.
Proof.
  intros Hpos Hinv.
  destruct o as [s | count | | limit | id |]; cbn; try assumption.
  - destruct (add_signal_cases m s) as [E | [_ E]];
      destruct (add_signal m s); cbn in *; rewrite E; assumption.
  - destruct (get_signals_history m count) as [Hfit Hcut].
    destruct (get_signals m count) as [out m'] eqn:E; cbn in *.
    destruct (Z.le_gt_cases (Z.of_nat (length (history m ++ out))) (max_history m)) as [Hle | Hgt].
    + rewrite (Hfit Hle). exact Hle.
    + destruct Hcut as (evicted & _ & Hlen); lia.
Qed.

Lemma run_history_bounded (queue_cap cap : Z) (ops : list op) :
  0 < cap ->
  Z.of_nat (length (history (run (SignalManager_init queue_cap cap) ops))) <= cap.
Proof.
  intros Hpos.
  assert (Hgen : forall m, max_history m = cap ->
            Z.of_nat (length (history m)) <= cap ->
            Z.of_nat (length (history (run m ops))) <= cap).
  { induction ops as [| o ops IH]; intros m Hcap Hinv; [exact Hinv |].
    cbn. apply IH.
    - rewrite step_max_history. exact Hcap.
    - rewrite <- Hcap. apply step_history_bounded; rewrite Hcap; assumption. }
  apply Hgen; [reflexivity | cbn; lia].
Qed.

(** C4, at the failing input. With a history cap of zero, one accepted
    signal taken from the queue stays in the history: the trimming slice
    [history[-0:]] is the whole list, so the history holds one entry above
    its cap. *)
Theorem history_cap_zero_exceeded :
  let m := run (SignalManager_init 1000 0) [Add Sample.eurusd_buy; Take None] in
  max_history m = 0
  /\ history m = [Sample.eurusd_buy]
  /\ max_history m < Z.of_nat (length (history m)).
Proof. cbv zeta. split; [| split]; vm_compute; reflexivity. Qed.

(** C5, amended. [get_history] returns the stored entries in the order they
    were recorded, oldest first and newest last: all of them for [None],
    the newest [min limit (len history)] of them for a positive limit, and
    none for a limit that is zero or negative. *)
Theorem get_history_chronological (m : SignalManager) (limit : option Z) :
  exists older,
    history m = older ++ get_history m limit
    /\ length (get_history m limit)
       = match limit with
         | None => length (history m)
         | Some l => Nat.min (Z.to_nat l) (length (history m))
         end.
Proof.
  destruct limit as [l |]; cbn.
  - destruct (Z.ltb_spec 0 l) as [Hpos | Hneg].
    + exists (Py.slice_to (history m) (- l)). split.
      * symmetry. apply slice_to_from.
      * unfold Py.slice_from, Py.slice_index.
        destruct (Z.ltb_spec (- l) 0); [| lia].
        rewrite length_skipn. lia.
    + exists (history m). split.
      * symmetry. apply app_nil_r.
      * replace (Z.to_nat l) with 0%nat by lia. reflexivity.
  - exists []. split; reflexivity.
Qed.

(** C5 as stated fails: once a first signal and then a second one have
    been recorded, [get_history] lists the first, older one first. *)
Lemma get_history_counterexample :
  let m1 := run (SignalManager_init 1000 10000) [Add Sample.eurusd_buy; Take None] in
  let m2 := run m1 [Add Sample.gbpusd_sell; Take None] in
  history m1 = [Sample.eurusd_buy]
  /\ get_history m2 None = [Sample.eurusd_buy; Sample.gbpusd_sell]
  /\ get_history m2 (Some 5) = [Sample.eurusd_buy; Sample.gbpusd_sell]
  /\ get_history m2 None <> [Sample.gbpusd_sell; Sample.eurusd_buy].
Proof.
  cbv zeta. split; [| split; [| split]]; try (vm_compute; reflexivity).
  intros H. apply (f_equal (fun l => option_map symbol (head l))) in H.
  vm_compute in H. discriminate.
Qed.

(** ** The store: deduplication *)

Lemma step_processed_mono (m : SignalManager) (o : op) :
  processed_signals m ⊆ processed_signals (snd (step m o)).
Proof.
  destruct o as [s | count | | limit | id |]; cbn; try reflexivity.
  - destruct (add_signal_cases m s) as [E | [_ E]];
      destruct (add_signal m s); cbn in *; rewrite E; [reflexivity | set_solver].
  - unfold get_signals. destruct count; reflexivity.
Qed.

(** The pending signals that bear the id [id]. *)
Lemma step_pending_with_id (m : SignalManager) (o : op) (id : string) :
  id ∈ processed_signals m ->
  (length (filter (fun s => signal_id s = id) (queue (snd (step m o))))
   <= length (filter (fun s => signal_id s = id) (queue m)))%nat.
Proof.
  intros Hin. set (P := fun s : TradeSignal => signal_id s = id).
  destruct o as [s | count | | limit | id' |]; cbn [step snd]; try reflexivity.
  - destruct (add_signal_cases m s) as [E | [Hfresh E]];
      destruct (add_signal m s); cbn [snd] in *; rewrite E; [reflexivity |].
    cbn [queue]. rewrite filter_app, length_app.
    rewrite (filter_cons_False P s []) by (unfold P; intros Heq; apply Hfresh; rewrite Heq; exact Hin).
    rewrite filter_nil. cbn [length]. rewrite Nat.add_0_r. reflexivity.
  - destruct (get_signals m count) as [out m'] eqn:E. cbn [snd].
    pose proof (get_signals_partition m count) as Hpart. rewrite E in Hpart. cbn [fst snd] in Hpart.
    rewrite <- Hpart, filter_app, length_app. apply Nat.le_add_l.
  - cbn [clear_queue queue]. rewrite filter_nil. apply Nat.le_0_l.
Qed.

(** C8. Once an id is in the dedup set it stays there through every
    sequence of operations, [get_signals] and [clear_queue] included; any
    later [add_signal] of a signal bearing it is rejected with a reason and
    changes nothing; and no operation adds a signal bearing it to the
    pending queue. *)
Theorem dedup_permanent (m : SignalManager) (ops : list op) (id : string) :
  id ∈ processed_signals m ->
  id ∈ processed_signals (run m ops)
  /\ (forall s, signal_id s = id ->
        exists reason, add_signal (run m ops) s = ((false, Some reason), run m ops))
  /\ (length (filter (fun s => signal_id s = id) (queue (run m ops)))
      <= length (filter (fun s => signal_id s = id) (queue m)))%nat.
Proof.
  revert m. induction ops as [| o ops IH]; intros m Hin.
  - cbn. split; [exact Hin | split; [| lia]].
    intros s <-. apply add_signal_seen, Hin.
  - cbn.
    assert (Hin' : id ∈ processed_signals (snd (step m o)))
      by (apply (step_processed_mono m o); exact Hin).
    destruct (IH _ Hin') as (Hkeep & Hrej & Hlen).
    split; [exact Hkeep | split; [exact Hrej |]].
    pose proof (step_pending_with_id m o id Hin). unfold run in Hlen. lia.
Qed.

Lemma dedup_permanent_witness :
  let m := run (SignalManager_init 1000 10000) [Add Sample.eurusd_buy] in
  let ops := [Take None; Clear; Add Sample.gbpusd_sell; History None] in
  signal_id Sample.eurusd_buy ∈ processed_signals (run m ops)
  /\ (forall s, signal_id s = signal_id Sample.eurusd_buy ->
        exists reason, add_signal (run m ops) s = ((false, Some reason), run m ops))
  /\ (length (filter (fun s => signal_id s = signal_id Sample.eurusd_buy) (queue (run m ops)))
      <= length (filter (fun s => signal_id s = signal_id Sample.eurusd_buy) (queue m)))%nat.
Proof.
  intros m ops. apply (dedup_permanent m ops (signal_id Sample.eurusd_buy)).
  apply (bool_decide_unpack _). vm_compute. exact I.
Defined.

(** ** Validation *)

Lemma float_eqb_leb (x y : float) : (x =? y)%float = true -> (x <=? y)%float = true.
Proof.
  rewrite FloatAxioms.eqb_spec, FloatAxioms.leb_spec. unfold SFeqb, SFleb.
  destruct (SFcompare _ _) as [[] |]; auto.
Qed.

(** A float that is not [<= 0] is truthy. *)
Lemma truthy_float_positive (x : float) :
  (x <=? 0)%float = false -> Py.truthy_float x = true.
Proof.
  intros Hx. unfold Py.truthy_float.
  destruct (x =? 0)%float eqn:E; [| reflexivity].
  apply float_eqb_leb in E. congruence.
Qed.

(** C3. A signal whose action is BUY and whose stop loss and take profit
    are both present with [stop_loss >= take_profit], and a signal whose
    action is SELL with both present and [stop_loss <= take_profit], fail
    validation: [validate] returns [(False, reason)] with a reason string,
    and raises nothing. *)
Theorem validate_stop_loss_order (s : TradeSignal) (sl tp : float) :
  stop_loss s = Some sl ->
  take_profit s = Some tp ->
  (Py.upper (action s) = "BUY"%string /\ Py.geb sl tp = true)
  \/ (Py.upper (action s) = "SELL"%string /\ (sl <=? tp)%float = true) ->
  exists reason, validate s = (false, Some reason).
Proof.
  intros Hsl Htp Horder. unfold validate. rewrite Hsl, Htp.
  destruct (negb _ || _); [eauto |].
  destruct (TradeAction_of_value _); [| eauto].
  destruct (lot_size s <=? 0)%float; [eauto |].
  destruct (sl <=? 0)%float eqn:Esl; [eauto |].
  destruct (tp <=? 0)%float eqn:Etp; [eauto |].
  cbn [Py.truthy_opt].
  rewrite (truthy_float_positive sl Esl), (truthy_float_positive tp Etp).
  destruct Horder as [[-> Hge] | [-> Hle]].
  - rewrite Hge. cbn. eauto.
  - rewrite Hle. cbn. eauto.
Qed.

Lemma validate_stop_loss_order_witness :
  (exists reason, validate Sample.crossed_buy = (false, Some reason))
  /\ (exists reason, validate Sample.crossed_sell = (false, Some reason)).
Proof.
  split.
  - apply (validate_stop_loss_order Sample.crossed_buy 1.125%float 1.0625%float);
      [reflexivity | reflexivity | left; split; vm_compute; reflexivity].
  - apply (validate_stop_loss_order Sample.crossed_sell 1.25%float 1.25%float);
      [reflexivity | reflexivity | right; split; vm_compute; reflexivity].
Defined.

(** ** Serialization *)

Lemma digit_val_char (d : Z) : 0 <= d < 10 -> digit_val (digit_char d) = Some d.
Proof.
  intros Hd.
  assert (H : d = 0 \/ d = 1 \/ d = 2 \/ d = 3 \/ d = 4 \/ d = 5 \/ d = 6
              \/ d = 7 \/ d = 8 \/ d = 9) by lia.
  repeat (destruct H as [-> | H]; [reflexivity |]). subst. reflexivity.
Qed.

Lemma string_app_cons (c : ascii) (s t : string) :
  (String c s ++ t)%string = String c (s ++ t)%string.
Proof. reflexivity. Qed.

(** Reading back the [w] digits written by [zfill]. *)
Lemma read_digits_zfill (w : nat) (n acc : Z) (rest : string) :
  read_digits w acc (zfill w n ++ rest)%string
  = Some (acc * 10 ^ Z.of_nat w + n mod 10 ^ Z.of_nat w, rest).
Proof.
  revert acc. induction w as [| w IH]; intros acc.
  - cbn [zfill read_digits]. change (("" ++ rest)%string) with rest.
    rewrite Z.pow_0_r, Z.mod_1_r. do 2 f_equal. lia.
  - cbn [zfill]. rewrite string_app_cons. cbn [read_digits].
    rewrite digit_val_char by (apply Z.mod_pos_bound; lia).
    rewrite IH. do 2 f_equal.
    rewrite Nat2Z.inj_succ, Z.pow_succ_r by lia.
    rewrite (Z.mul_comm 10 (10 ^ Z.of_nat w)).
    rewrite (Z.rem_mul_r n (10 ^ Z.of_nat w) 10) by lia.
    ring.
Qed.

Lemma read_digits_zfill_small (w : nat) (n : Z) (rest : string) :
  0 <= n < 10 ^ Z.of_nat w ->
  read_digits w 0 (zfill w n ++ rest)%string = Some (n, rest).
Proof.
  intros Hn. rewrite read_digits_zfill, Z.mod_small by exact Hn. reflexivity.
Qed.

Lemma length_zfill (w : nat) (n : Z) : String.length (zfill w n) = w.
Proof. induction w as [| w IH]; cbn [zfill String.length]; congruence. Qed.

Lemma wf_datetime_bounds (d : datetime) :
  wf_datetime d = true ->
  0 <= year d < 10 ^ 4 /\ 0 <= month d < 10 ^ 2 /\ 0 <= day d < 10 ^ 2
  /\ 0 <= hour d < 10 ^ 2 /\ 0 <= minute d < 10 ^ 2 /\ 0 <= second d < 10 ^ 2
  /\ 0 <= microsecond d < 10 ^ 6.
Proof.
  unfold wf_datetime. intros H.
  repeat match type of H with (_ && _ = true) => apply andb_prop in H; destruct H as [H ?] end.
  assert (days_in_month (year d) (month d) <= 31).
  { unfold days_in_month. repeat match goal with |- context [match ?x with _ => _ end] => destruct x end; lia. }
  lia.
Qed.

Lemma expect_app (c : ascii) (rest : string) :
  expect c (String c "" ++ rest)%string = Some rest.
Proof. simpl. rewrite Ascii.eqb_refl. reflexivity. Qed.

Lemma parse_date_text (y m d : Z) (rest : string) :
  0 <= y < 10 ^ 4 -> 0 <= m < 10 ^ 2 -> 0 <= d < 10 ^ 2 ->
  parse_date (zfill 4 y ++ "-" ++ zfill 2 m ++ "-" ++ zfill 2 d ++ rest)%string
  = Some (y, m, d, rest).
Proof.
  intros Hy Hm Hd. unfold parse_date.
  rewrite (read_digits_zfill_small 4) by exact Hy. cbn [mbind option_bind].
  rewrite expect_app. cbn [mbind option_bind].
  rewrite (read_digits_zfill_small 2) by exact Hm. cbn [mbind option_bind].
  rewrite expect_app. cbn [mbind option_bind].
  rewrite (read_digits_zfill_small 2) by exact Hd. reflexivity.
Qed.

Lemma string_app_nil_r (s : string) : (s ++ "")%string = s.
Proof.
  induction s as [| c s IH]; [reflexivity |].
  rewrite string_app_cons, IH. reflexivity.
Qed.

Lemma parse_fraction_text (f : Z) :
  0 <= f < 10 ^ 6 -> parse_fraction (zfill 6 f) = Some f.
Proof.
  intros Hf. unfold parse_fraction. rewrite length_zfill. cbn [Nat.eqb].
  rewrite <- (string_app_nil_r (zfill 6 f)) at 1.
  rewrite (read_digits_zfill_small 6) by exact Hf. reflexivity.
Qed.

(** What [parse_time] does after a two-digit field that is followed by
    the separator [c]. *)
Lemma after_separator {B : Type} (c : ascii) (rest : string) (done : B)
    (k : string -> option B) :
  match (String c "" ++ rest)%string with
  | EmptyString => Some done
  | _ => s ← expect c (String c "" ++ rest)%string; k s
  end = k rest.
Proof. rewrite expect_app. reflexivity. Qed.

Lemma parse_time_text (h mi se f : Z) :
  0 <= h < 10 ^ 2 -> 0 <= mi < 10 ^ 2 -> 0 <= se < 10 ^ 2 -> 0 <= f < 10 ^ 6 ->
  parse_time (zfill 2 h ++ ":" ++ zfill 2 mi ++ ":" ++ zfill 2 se ++
              (if (f =? 0)%Z then "" else "." ++ zfill 6 f))%string
  = Some (h, mi, se, f).
Proof.
  intros Hh Hmi Hse Hf. unfold parse_time.
  rewrite (read_digits_zfill_small 2) by exact Hh. cbn [mbind option_bind].
  rewrite after_separator.
  rewrite (read_digits_zfill_small 2) by exact Hmi. cbn [mbind option_bind].
  rewrite after_separator.
  rewrite (read_digits_zfill_small 2) by exact Hse. cbn [mbind option_bind].
  destruct (Z.eqb_spec f 0) as [-> | Hnz]; [reflexivity |].
  rewrite after_separator.
  rewrite parse_fraction_text by exact Hf. reflexivity.
Qed.

(** The ISO text of a timestamp reads back as the timestamp. *)
Lemma fromisoformat_isoformat (d : datetime) :
  wf_datetime d = true -> fromisoformat (isoformat d) = Some d.
Proof.
  intros Hwf. pose proof (wf_datetime_bounds d Hwf) as (Hy & Hm & Hd & Hh & Hmi & Hs & Hus).
  unfold fromisoformat, isoformat.
  rewrite parse_date_text by assumption. cbn [mbind option_bind].
  change (String "T" "" ++ ?r)%string with (String "T" r). cbv iota.
  rewrite parse_time_text by assumption. cbn [mbind option_bind].
  destruct d; cbn in *. rewrite Hwf. reflexivity.
Qed.

Lemma to_dict_timestamp (s : TradeSignal) :
  to_dict s !! "timestamp"%string = Some (VStr (isoformat (timestamp s))).
Proof. unfold to_dict. cbn [list_to_map foldr fst snd]. simplify_map_eq. reflexivity. Qed.

Lemma from_dict_inverts_to_dict (now : datetime) (posix_seconds : datetime -> Z)
    (s : TradeSignal) :
  wf_datetime (timestamp s) = true ->
  from_dict now posix_seconds (to_dict s) = inr s.
Proof.
  intros Hwf.
  unfold from_dict. rewrite to_dict_timestamp, (fromisoformat_isoformat _ Hwf).
  cbn [bind]. unfold from_kwargs.
  destruct s as [sym act bro lot sl tp com ts id]. unfold to_dict.
  cbn [symbol action broker lot_size stop_loss take_profit comment timestamp signal_id].
  generalize (isoformat ts). intros text.
  destruct sl, tp; vm_compute; reflexivity.
Qed.

(** The JSON text adds nothing of its own: with a [json] codec that reads
    back the dictionaries it writes, [from_json] inverts [to_json]. *)
Lemma from_json_to_json (dumps : gmap string pyval -> string)
    (loads : string -> exn + gmap string pyval)
    (now : datetime) (posix_seconds : datetime -> Z) (s : TradeSignal) :
  (forall d, loads (dumps d) = inr d) ->
  wf_datetime (timestamp s) = true ->
  from_json loads now posix_seconds (to_json dumps s) = inr s.
Proof.
  intros Hcodec Hwf. unfold from_json, to_json. rewrite Hcodec. cbn [bind].
  apply from_dict_inverts_to_dict, Hwf.
Qed.

(** C9. Deserializing the dictionary of a signal gives back the signal,
    equal in every field: symbol, action, broker, lot size, stop loss, take
    profit, comment and id as they are, and the timestamp through its ISO
    text, which is what the dictionary holds for it. *)
Theorem from_dict_to_dict (now : datetime) (posix_seconds : datetime -> Z)
    (s : TradeSignal) :
  wf_datetime (timestamp s) = true ->
  to_dict s !! "timestamp"%string = Some (VStr (isoformat (timestamp s)))
  /\ from_dict now posix_seconds (to_dict s) = inr s.
Proof.
  intros Hwf. split.
  - apply to_dict_timestamp.
  - apply from_dict_inverts_to_dict, Hwf.
Qed.

Lemma from_dict_to_dict_witness :
  from_dict Sample.t0 Sample.utc_seconds (to_dict Sample.gbpusd_sell)
  = inr Sample.gbpusd_sell.
Proof.
  apply (from_dict_to_dict Sample.t0 Sample.utc_seconds Sample.gbpusd_sell).
  vm_compute. reflexivity.
Defined.

Example to_dict_timestamp_text :
  to_dict Sample.gbpusd_sell !! "timestamp"%string
  = Some (VStr "2024-01-15T10:30:01.250000").
Proof. vm_compute. reflexivity. Qed.

Example from_dict_defaults :
  from_dict Sample.t0 Sample.utc_seconds
    {[ "symbol"%string := VStr "EURUSD"; "action"%string := VStr "BUY";
       "broker"%string := VStr "exness"; "lot_size"%string := VFloat 0.5;
       "stop_loss"%string := VFloat 1.0625; "take_profit"%string := VFloat 1.125 ]}
  = inr Sample.eurusd_buy.
Proof. vm_compute. reflexivity. Qed.

Example from_dict_unknown_key :
  from_dict Sample.t0 Sample.utc_seconds
    {[ "symbol"%string := VStr "EURUSD"; "action"%string := VStr "BUY";
       "broker"%string := VStr "exness"; "lot_size"%string := VFloat 0.5;
       "price"%string := VFloat 1.0625 ]}
  = inl TypeError.
Proof. vm_compute. reflexivity. Qed.

Example from_dict_bad_timestamp :
  from_dict Sample.t0 Sample.utc_seconds
    {[ "symbol"%string := VStr "EURUSD"; "action"%string := VStr "BUY";
       "broker"%string := VStr "exness"; "lot_size"%string := VFloat 0.5;
       "timestamp"%string := VStr "yesterday" ]}
  = inl ValueError.
Proof. vm_compute. reflexivity. Qed.


(** ** The bridge: last contact and the heartbeat monitor *)

Example connected_at_t0 :
  connection_status (Sample.connected_at Sample.t0) = "connected"%string
  /\ last_heartbeat (Sample.connected_at Sample.t0) = Some Sample.t0
  /\ running (Sample.connected_at Sample.t0) = true.
Proof. repeat split; vm_compute; reflexivity. Qed.

Example unknown_action_response :
  _process_request (Sample.clock_at Sample.t0) (started MQL5Bridge_init)
    {[ "action"%string := VStr "ping" ]}
  = inr (Error_response "Unknown action: PING", started MQL5Bridge_init,
         [Warning_unknown_action "PING"]).
Proof. vm_compute. reflexivity. Qed.

Example get_signals_bad_count :
  _process_request (Sample.clock_at Sample.t0) (started MQL5Bridge_init)
    {[ "action"%string := VStr "GET_SIGNALS"; "count"%string := VStr "all" ]}
  = inl TypeError.
Proof. vm_compute. reflexivity. Qed.

(** The scenario of the specification: a signal sent, then polled by the
    peer, then the counters read. *)
Example send_then_poll :
  let b0 := started MQL5Bridge_init in
  let '(accepted, m1) := add_signal (signal_manager b0) Sample.eurusd_buy in
  let b1 := {| running := running b0; signal_manager := m1;
               connection_status := connection_status b0;
               last_heartbeat := last_heartbeat b0;
               heartbeat_timeout := heartbeat_timeout b0; stats := stats b0 |} in
  accepted = (true, None)
  /\ match _process_request (Sample.clock_at Sample.t1) b1 Sample.get_signals_request with
     | inr (Signals_response signals size, b2, _) =>
         map (fun d => d !! "symbol"%string) signals = [Some (VStr "EURUSD")]
         /\ size = 0%nat
         /\ signals_sent (stats b2) = 1
     | _ => False
     end.
Proof. vm_compute. split; [| split; [| split]]; reflexivity. Qed.

(** A request of one of the two liveness actions records the contact and
    sets the status to connected. *)
Lemma liveness_request_connects (now : nat -> datetime) (b : MQL5Bridge)
    (request : gmap string pyval) (a : string) :
  request !! "action"%string = Some (VStr a) ->
  Py.upper a = "SEND_STATUS"%string \/ Py.upper a = "HEARTBEAT"%string ->
  exists resp b' logs,
    _process_request now b request = inr (resp, b', logs)
    /\ last_heartbeat b' = Some (now 0%nat)
    /\ connection_status b' = "connected"%string.
Proof.
  intros Hreq Ha. unfold _process_request, get_default. rewrite Hreq. cbn [bind].
  destruct Ha as [-> | ->]; cbn; eauto 6.
Qed.

(** C6, amended. Of the inbound requests, only SEND_STATUS and HEARTBEAT
    update the last-contact timestamp (to the time of the request) and set
    the status to connected; GET_SIGNALS, GET_BRIDGE_STATUS and unknown
    actions leave the last-contact timestamp and the connection status as
    they were. *)
Theorem process_request_last_contact (now : nat -> datetime) (b : MQL5Bridge)
    (request : gmap string pyval) (a : string) :
  request !! "action"%string = Some (VStr a) ->
  (Py.upper a = "SEND_STATUS"%string \/ Py.upper a = "HEARTBEAT"%string ->
     exists resp b' logs,
       _process_request now b request = inr (resp, b', logs)
       /\ last_heartbeat b' = Some (now 0%nat)
       /\ connection_status b' = "connected"%string)
  /\ (Py.upper a <> "SEND_STATUS"%string -> Py.upper a <> "HEARTBEAT"%string ->
     forall resp b' logs,
       _process_request now b request = inr (resp, b', logs) ->
       last_heartbeat b' = last_heartbeat b
       /\ connection_status b' = connection_status b).
Proof.
  intros Hreq. split; [apply liveness_request_connects; exact Hreq |].
  intros Hs Hh resp b' logs. unfold _process_request, get_default.
  rewrite Hreq. cbn [bind].
  destruct (String.eqb_spec (Py.upper a) "GET_SIGNALS") as [_ | _].
  - destruct (request !! "count"%string) as [[] |]; cbn [bind]; try discriminate;
      destruct (get_signals _ _); intros [= <- <- <-]; cbn; auto.
  - destruct (String.eqb_spec (Py.upper a) "SEND_STATUS"); [contradiction |].
    destruct (String.eqb_spec (Py.upper a) "HEARTBEAT"); [contradiction |].
    destruct (String.eqb (Py.upper a) "GET_BRIDGE_STATUS");
      intros [= <- <- <-]; auto.
Qed.

Lemma process_request_last_contact_witness :
  exists resp b' logs,
    _process_request (Sample.clock_at Sample.t1) (started MQL5Bridge_init)
      Sample.heartbeat_request = inr (resp, b', logs)
    /\ last_heartbeat b' = Some Sample.t1
    /\ connection_status b' = "connected"%string.
Proof.
  apply (proj1 (process_request_last_contact (Sample.clock_at Sample.t1)
                  (started MQL5Bridge_init) Sample.heartbeat_request "heartbeat"
                  eq_refl)).
  right. vm_compute. reflexivity.
Defined.

(** C6 as stated fails: served on a bridge that was never contacted, a
    GET_SIGNALS request and a GET_BRIDGE_STATUS request are answered with
    the last-contact timestamp still unset. *)
Lemma process_request_last_contact_counterexample :
  match _process_request (Sample.clock_at Sample.t0) (started MQL5Bridge_init)
          Sample.get_signals_request with
  | inr (Signals_response _ _, b', _) => last_heartbeat b' = None
  | _ => False
  end
  /\ match _process_request (Sample.clock_at Sample.t0) (started MQL5Bridge_init)
             Sample.bridge_status_request with
     | inr (Status_response _ _ _ _, b', _) => last_heartbeat b' = None
     | _ => False
     end.
Proof. split; vm_compute; reflexivity. Qed.

(** C7, amended. When the last contact is set and more than
    [heartbeat_timeout] seconds have elapsed since, every poll of the
    monitor sets the status to disconnected and emits the diagnostic, also
    when the status is disconnected already: a later poll during the same
    silence emits it again. The next SEND_STATUS or HEARTBEAT request
    restores connected. *)
Theorem monitor_poll_disconnects (t now : datetime) (b : MQL5Bridge) :
  last_heartbeat b = Some t ->
  elapsed_gt now t (heartbeat_timeout b) = true ->
  connection_status (fst (monitor_poll now b)) = "disconnected"%string
  /\ snd (monitor_poll now b) = [Warning_connection_lost (to_micros now - to_micros t)]
  /\ (forall later,
        elapsed_gt later t (heartbeat_timeout b) = true ->
        snd (monitor_poll later (fst (monitor_poll now b)))
        = [Warning_connection_lost (to_micros later - to_micros t)])
  /\ (forall clock request a,
        request !! "action"%string = Some (VStr a) ->
        Py.upper a = "SEND_STATUS"%string \/ Py.upper a = "HEARTBEAT"%string ->
        exists resp b' logs,
          _process_request clock (fst (monitor_poll now b)) request
          = inr (resp, b', logs)
          /\ last_heartbeat b' = Some (clock 0%nat)
          /\ connection_status b' = "connected"%string).
Proof.
  intros Hlast Hsilent.
  assert (Hpoll : monitor_poll now b
                  = ({| running := running b;
                        signal_manager := signal_manager b;
                        connection_status := "disconnected";
                        last_heartbeat := last_heartbeat b;
                        heartbeat_timeout := heartbeat_timeout b;
                        stats := stats b |},
                     [Warning_connection_lost (to_micros now - to_micros t)])).
  { unfold monitor_poll. rewrite Hlast, Hsilent. reflexivity. }
  rewrite Hpoll. cbn [fst snd connection_status].
  split; [reflexivity | split; [reflexivity | split]].
  - intros later Hlater. unfold monitor_poll.
    cbn [last_heartbeat heartbeat_timeout]. rewrite Hlast, Hlater. reflexivity.
  - intros clock request a Hreq Ha.
    apply (liveness_request_connects clock _ request a Hreq Ha).
Qed.

Lemma monitor_poll_disconnects_witness :
  connection_status (fst (monitor_poll Sample.t0_plus_31s (Sample.connected_at Sample.t0)))
  = "disconnected"%string
  /\ snd (monitor_poll Sample.t0_plus_31s (Sample.connected_at Sample.t0))
     = [Warning_connection_lost 31000000].
Proof.
  destruct (monitor_poll_disconnects Sample.t0 Sample.t0_plus_31s
              (Sample.connected_at Sample.t0)) as (Hstatus & Hlog & _).
  - vm_compute. reflexivity.
  - vm_compute. reflexivity.
  - split; [exact Hstatus | exact Hlog].
Defined.

(** C7 as stated fails: after a heartbeat and thirty-one seconds of
    silence the first poll disconnects and warns; the poll five seconds
    later, with the status disconnected already, warns again, and so does
    the next. *)
Lemma monitor_heartbeat_counterexample :
  let b1 := fst (monitor_poll Sample.t0_plus_31s (Sample.connected_at Sample.t0)) in
  connection_status b1 = "disconnected"%string
  /\ snd (monitor_poll Sample.t0_plus_36s b1) = [Warning_connection_lost 36000000]
  /\ snd (_monitor_heartbeat
            [Sample.t0_plus_31s; Sample.t0_plus_36s; Sample.t0_plus_41s]
            (Sample.connected_at Sample.t0))
     = [Warning_connection_lost 31000000; Warning_connection_lost 36000000;
        Warning_connection_lost 41000000].
Proof. cbv zeta. repeat split; vm_compute; reflexivity. Qed.

(** * Further properties of the store *)

(** ** Validation, characterised *)

Lemma TradeAction_of_value_known (v : string) :
  (exists a, TradeAction_of_value v = Some a)
  <-> In v ["BUY"; "SELL"; "CLOSE"; "MODIFY"]%string.
Proof.
  unfold TradeAction_of_value. split.
  - intros [a Ha]. revert Ha. cbn.
    destruct (String.eqb_spec v "BUY"); [auto |].
    destruct (String.eqb_spec v "SELL"); [auto |].
    destruct (String.eqb_spec v "CLOSE"); [auto |].
    destruct (String.eqb_spec v "MODIFY"); [auto 6 | intros Ha; discriminate Ha].
  - intros [<- | [<- | [<- | [<- | []]]]]; cbn; eauto.
Qed.

(** Closes the "accepted" direction once every test of [validate] has been
    decided. *)
Ltac validate_accepted Hlen a :=
  refine (conj Hlen (conj (ex_intro _ a eq_refl) (conj eq_refl (conj _ (conj _ _)))));
  [ intros ? Hsome; try discriminate Hsome; injection Hsome as <-; assumption
  | intros ? Hsome; try discriminate Hsome; injection Hsome as <-; assumption
  | intros ? ? Hsl Htp; try discriminate Hsl; try discriminate Htp;
    injection Hsl as <-; injection Htp as <-;
    split; intros Hact; try assumption; try discriminate Hact; congruence ].

(** X1. [validate] accepts a signal exactly when its symbol has at least
    three characters, its action is one of the four, case ignored, its lot
    size is not [<= 0], a stop loss or take profit that is present is not
    [<= 0], and, when both are present, a BUY does not have
    [stop_loss >= take_profit] and a SELL does not have
    [stop_loss <= take_profit]. *)
Theorem validate_accepts_iff (s : TradeSignal) :
  validate s = (true, None)
  <-> (3 <= String.length (symbol s))%nat
      /\ In (Py.upper (action s)) ["BUY"; "SELL"; "CLOSE"; "MODIFY"]%string
      /\ (lot_size s <=? 0)%float = false
      /\ (forall sl, stop_loss s = Some sl -> (sl <=? 0)%float = false)
      /\ (forall tp, take_profit s = Some tp -> (tp <=? 0)%float = false)
      /\ (forall sl tp, stop_loss s = Some sl -> take_profit s = Some tp ->
            (Py.upper (action s) = "BUY"%string -> Py.geb sl tp = false)
            /\ (Py.upper (action s) = "SELL"%string -> (sl <=? tp)%float = false)).
Proof.
  rewrite <- TradeAction_of_value_known. unfold validate.
  assert (Hsym : negb (Py.truthy_str (symbol s)) || (String.length (symbol s) <? 3)%nat = false
                 <-> (3 <= String.length (symbol s))%nat).
  { destruct (symbol s) as [| c sym]; cbn [Py.truthy_str negb orb String.length].
    - split; [discriminate | lia].
    - rewrite Nat.ltb_ge. reflexivity. }
  destruct (negb _ || _).
  { split; [discriminate |]. intros [Hlen _]. apply Hsym in Hlen. discriminate. }
  assert (Hlen : (3 <= String.length (symbol s))%nat) by (apply Hsym; reflexivity).
  clear Hsym.
  destruct (TradeAction_of_value (Py.upper (action s))) as [a |].
  2: { split; [discriminate |]. intros (_ & [a Ha] & _). discriminate. }
  destruct (lot_size s <=? 0)%float.
  { split; [discriminate |]. intros (_ & _ & Hlot & _). discriminate. }
  destruct (stop_loss s) as [sl |], (take_profit s) as [tp |];
    cbn [Py.truthy_opt andb].
  - destruct (sl <=? 0)%float eqn:Esl.
    { split; [discriminate |]. intros (_ & _ & _ & Hsl & _).
      specialize (Hsl sl eq_refl). congruence. }
    destruct (tp <=? 0)%float eqn:Etp.
    { split; [discriminate |]. intros (_ & _ & _ & _ & Htp & _).
      specialize (Htp tp eq_refl). congruence. }
    rewrite (truthy_float_positive sl Esl), (truthy_float_positive tp Etp).
    rewrite !andb_true_r.
    destruct (String.eqb_spec (Py.upper (action s)) "BUY") as [Ebuy | Nbuy];
      cbn [andb].
    + destruct (Py.geb sl tp) eqn:Ege.
      { split; [discriminate |]. intros (_ & _ & _ & _ & _ & Hord).
        destruct (Hord sl tp eq_refl eq_refl) as [Hb _].
        specialize (Hb Ebuy). congruence. }
      rewrite Ebuy. cbn [String.eqb Ascii.eqb Bool.eqb andb].
      split; [| reflexivity]. intros _.
      validate_accepted Hlen a.
    + destruct (String.eqb_spec (Py.upper (action s)) "SELL") as [Esell | Nsell];
        cbn [andb].
      * destruct (sl <=? tp)%float eqn:Ele.
        { split; [discriminate |]. intros (_ & _ & _ & _ & _ & Hord).
          destruct (Hord sl tp eq_refl eq_refl) as [_ Hs].
          specialize (Hs Esell). congruence. }
        split; [| reflexivity]. intros _.
        validate_accepted Hlen a.
      * split; [| reflexivity]. intros _.
        validate_accepted Hlen a.
  - destruct (sl <=? 0)%float eqn:Esl.
    { split; [discriminate |]. intros (_ & _ & _ & Hsl & _).
      specialize (Hsl sl eq_refl). congruence. }
    rewrite !andb_false_r.
    split; [| reflexivity]. intros _.
    validate_accepted Hlen a.
  - destruct (tp <=? 0)%float eqn:Etp.
    { split; [discriminate |]. intros (_ & _ & _ & _ & Htp & _).
      specialize (Htp tp eq_refl). congruence. }
    rewrite !andb_false_r.
    split; [| reflexivity]. intros _.
    validate_accepted Hlen a.
  - rewrite !andb_false_r.
    split; [| reflexivity]. intros _.
    validate_accepted Hlen a.
Qed.

(** ** What the store holds *)

(** An accepted signal passed the three checks. *)
Lemma add_signal_accepted (m : SignalManager) (s : TradeSignal) :
  fst (fst (add_signal m s)) = true ->
  fst (validate s) = true
  /\ (signal_id s ∉ processed_signals m)
  /\ Z.of_nat (length (queue m)) < max_queue_size m
  /\ add_signal m s
     = ((true, None),
        {| queue := queue m ++ [s];
           history := history m;
           max_queue_size := max_queue_size m;
           max_history := max_history m;
           processed_signals := processed_signals m ∪ {[signal_id s]} |}).
Proof.
  unfold add_signal. destruct (validate s) as [[] error]; cbn; [| discriminate].
  destruct (bool_decide_reflect (signal_id s ∈ processed_signals m)); cbn; [discriminate |].
  destruct (Z.leb_spec (max_queue_size m) (Z.of_nat (length (queue m)))); cbn;
    [discriminate | auto].
Qed.

Lemma step_max_queue_size (m : SignalManager) (o : op) :
  max_queue_size (snd (step m o)) = max_queue_size m.
Proof.
  destruct o as [s | count | | limit | id |]; cbn; try reflexivity.
  - destruct (add_signal_cases m s) as [E | [_ E]];
      destruct (add_signal m s); cbn in *; rewrite E; reflexivity.
  - unfold get_signals. destruct count; reflexivity.
Qed.

Lemma step_queue_bounded (m : SignalManager) (o : op) :
  Z.of_nat (length (queue m)) <= Z.max 0 (max_queue_size m) ->
  Z.of_nat (length (queue (snd (step m o)))) <= Z.max 0 (max_queue_size m).
Proof.
  intros Hinv. destruct o as [s | count | | limit | id |]; cbn; try assumption.
  - destruct (fst (fst (add_signal m s))) eqn:Hacc.
    + destruct (add_signal_accepted m s Hacc) as (_ & _ & Hroom & ->). cbn.
      rewrite length_app. cbn. lia.
    + destruct (add_signal_rejected m s Hacc) as [Hsame _].
      destruct (add_signal m s); cbn in *. subst. assumption.
  - pose proof (get_signals_partition m count) as Hpart.
    destruct (get_signals m count) as [out m']; cbn in *.
    rewrite <- Hpart, length_app in Hinv. lia.
  - lia.
Qed.

(** X2. From a fresh store, whatever the operations, the pending queue
    never holds more than [max_queue_size] signals (none at all under a
    capacity of zero or below). *)
Theorem run_queue_bounded (queue_cap history_cap : Z) (ops : list op) :
  Z.of_nat (length (queue (run (SignalManager_init queue_cap history_cap) ops)))
  <= Z.max 0 queue_cap.
Proof.
  assert (Hgen : forall m, max_queue_size m = queue_cap ->
            Z.of_nat (length (queue m)) <= Z.max 0 queue_cap ->
            Z.of_nat (length (queue (run m ops))) <= Z.max 0 queue_cap).
  { induction ops as [| o ops IH]; intros m Hcap Hinv; [exact Hinv |].
    cbn. apply IH.
    - rewrite step_max_queue_size. exact Hcap.
    - rewrite <- Hcap. apply step_queue_bounded. rewrite Hcap. exact Hinv. }
  apply Hgen; [reflexivity | cbn; lia].
Qed.

(** What one operation does to the signals held, history first and queue
    after: it keeps a segment of them, or it appends one accepted signal. *)
Lemma step_stored (m : SignalManager) (o : op) :
  (processed_signals (snd (step m o)) = processed_signals m
   /\ exists before after,
        history m ++ queue m
        = before ++ (history (snd (step m o)) ++ queue (snd (step m o))) ++ after)
  \/ (exists s,
        fst (validate s) = true
        /\ (signal_id s ∉ processed_signals m)
        /\ processed_signals (snd (step m o)) = processed_signals m ∪ {[signal_id s]}
        /\ history (snd (step m o)) ++ queue (snd (step m o))
           = (history m ++ queue m) ++ [s]).
Proof.
  destruct o as [s | count | | limit | id |]; cbn.
  - destruct (fst (fst (add_signal m s))) eqn:Hacc.
    + right. exists s.
      destruct (add_signal_accepted m s Hacc) as (Hv & Hfresh & _ & ->). cbn.
      rewrite app_assoc. auto.
    + left. destruct (add_signal_rejected m s Hacc) as [Hsame _].
      destruct (add_signal m s); cbn in *. subst.
      split; [reflexivity |]. exists [], []. rewrite app_nil_r. reflexivity.
  - left.
    destruct (get_signals_evicts_oldest m count) as [evicted Hev].
    pose proof (get_signals_partition m count) as Hpart.
    assert (Hproc : processed_signals (snd (get_signals m count)) = processed_signals m)
      by (unfold get_signals; destruct count; reflexivity).
    destruct (get_signals m count) as [out m']; cbn in *.
    split; [exact Hproc |]. exists evicted, [].
    rewrite app_nil_r, app_assoc, <- Hev, <- Hpart, app_assoc. reflexivity.
  - left. split; [reflexivity |]. exists [], (queue m). cbn.
    rewrite app_nil_r. reflexivity.
  - left. split; [reflexivity |]. exists [], []. rewrite app_nil_r. reflexivity.
  - left. split; [reflexivity |]. exists [], []. rewrite app_nil_r. reflexivity.
  - left. split; [reflexivity |]. exists [], []. rewrite app_nil_r. reflexivity.
Qed.

(** The invariant of the signals held, kept by every operation. *)
Lemma step_stored_invariant (m : SignalManager) (o : op) :
  Forall (fun x => fst (validate x) = true /\ signal_id x ∈ processed_signals m)
         (history m ++ queue m)
  /\ NoDup (signal_id <$> (history m ++ queue m)) ->
  Forall (fun x => fst (validate x) = true
                   /\ signal_id x ∈ processed_signals (snd (step m o)))
         (history (snd (step m o)) ++ queue (snd (step m o)))
  /\ NoDup (signal_id <$> (history (snd (step m o)) ++ queue (snd (step m o)))).
Proof.
  intros [Hall Hnodup].
  destruct (step_stored m o) as [[Hproc (before & after & Hseg)] | (s & Hv & Hfresh & Hproc & Hext)].
  - rewrite Hproc. rewrite Hseg in Hall, Hnodup. split.
    + apply Forall_app in Hall as [_ Hall]. apply Forall_app in Hall as [Hall _].
      exact Hall.
    + rewrite !fmap_app in Hnodup.
      apply NoDup_app in Hnodup as (_ & _ & Hnodup).
      apply NoDup_app in Hnodup as (Hnodup & _ & _).
      rewrite <- fmap_app in Hnodup. exact Hnodup.
  - rewrite Hproc, Hext. split.
    + apply Forall_app. split.
      * eapply Forall_impl; [exact Hall |]. cbn. intros x [? ?].
        split; [assumption | apply elem_of_union_l; assumption].
      * constructor; [| constructor].
        split; [assumption | apply elem_of_union_r, elem_of_singleton; reflexivity].
    + rewrite fmap_app. apply NoDup_app. split; [exact Hnodup | split].
      * intros id Hid Hin. cbn in Hin. apply list_elem_of_singleton in Hin. subst id.
        apply list_elem_of_fmap in Hid as (x & Hx & Hmem).
        rewrite Forall_forall in Hall. destruct (Hall x Hmem) as [_ Hseen].
        rewrite <- Hx in Hseen. contradiction.
      * cbn. apply NoDup_singleton.
Qed.

Lemma run_stored_invariant (queue_cap history_cap : Z) (ops : list op) :
  let m := run (SignalManager_init queue_cap history_cap) ops in
  Forall (fun x => fst (validate x) = true /\ signal_id x ∈ processed_signals m)
         (history m ++ queue m)
  /\ NoDup (signal_id <$> (history m ++ queue m)).
Proof.
  cbv zeta.
  assert (Hgen : forall m,
    Forall (fun x => fst (validate x) = true /\ signal_id x ∈ processed_signals m)
           (history m ++ queue m)
    /\ NoDup (signal_id <$> (history m ++ queue m)) ->
    Forall (fun x => fst (validate x) = true
                     /\ signal_id x ∈ processed_signals (run m ops))
           (history (run m ops) ++ queue (run m ops))
    /\ NoDup (signal_id <$> (history (run m ops) ++ queue (run m ops)))).
  { induction ops as [| o ops IH]; intros m Hinv; [exact Hinv |].
    cbn. apply IH, step_stored_invariant, Hinv. }
  apply Hgen. cbn. split; constructor.
Qed.

Lemma validate_accepts_none (s : TradeSignal) :
  fst (validate s) = true -> validate s = (true, None).
Proof.
  unfold validate.
  repeat match goal with
         | |- context [if ?c then _ else _] => destruct c
         | |- context [match ?c with Some _ => _ | None => _ end] => destruct c
         end; cbn; congruence.
Qed.

(** X3. From a fresh store, whatever the operations, every signal in the
    pending queue and in the history passed validation. *)
Theorem run_stored_valid (queue_cap history_cap : Z) (ops : list op) (s : TradeSignal) :
  let m := run (SignalManager_init queue_cap history_cap) ops in
  In s (queue m) \/ In s (history m) -> validate s = (true, None).
Proof.
  cbv zeta. intros Hin.
  destruct (run_stored_invariant queue_cap history_cap ops) as [Hall _].
  rewrite Forall_forall in Hall.
  apply validate_accepts_none, Hall.
  apply elem_of_app. rewrite !list_elem_of_In. tauto.
Qed.

(** X4. From a fresh store, whatever the operations, the id of every signal
    in the pending queue and in the history is in the dedup set. *)
Theorem run_stored_seen (queue_cap history_cap : Z) (ops : list op) (s : TradeSignal) :
  let m := run (SignalManager_init queue_cap history_cap) ops in
  In s (queue m) \/ In s (history m) -> signal_id s ∈ processed_signals m.
Proof.
  cbv zeta. intros Hin.
  destruct (run_stored_invariant queue_cap history_cap ops) as [Hall _].
  rewrite Forall_forall in Hall.
  apply Hall. apply elem_of_app. rewrite !list_elem_of_In. tauto.
Qed.

(** X5. From a fresh store, whatever the operations, no two signals held,
    in the history and the pending queue together, bear the same id. *)
Theorem run_stored_ids_distinct (queue_cap history_cap : Z) (ops : list op) :
  let m := run (SignalManager_init queue_cap history_cap) ops in
  NoDup (map signal_id (history m ++ queue m)).
Proof. apply run_stored_invariant. Qed.

Lemma run_stored_valid_witness :
  validate Sample.gbpusd_sell = (true, None).
Proof.
  apply (run_stored_valid 1000 10000
           [Add Sample.eurusd_buy; Add Sample.crossed_buy; Add Sample.gbpusd_sell;
            Take (Some 1)]).
  left. vm_compute. left. reflexivity.
Defined.

Lemma run_stored_seen_witness :
  signal_id Sample.eurusd_buy
  ∈ processed_signals
      (run (SignalManager_init 1000 10000)
         [Add Sample.eurusd_buy; Add Sample.gbpusd_sell; Take (Some 1); Clear]).
Proof.
  apply (run_stored_seen 1000 10000
           [Add Sample.eurusd_buy; Add Sample.gbpusd_sell; Take (Some 1); Clear]).
  right. vm_compute. left. reflexivity.
Defined.

(** ** Looking a signal up *)

Lemma find_rev_snoc {A} (f : A -> bool) (l : list A) (x : A) :
  List.find f (rev (l ++ [x])) = if f x then Some x else List.find f (rev l).
Proof. rewrite rev_app_distr. reflexivity. Qed.

(** X6. [get_signal_by_id] returns the newest history entry bearing the id:
    it returns [s] exactly when [s] is in the history with that id and no
    later entry bears it, and [None] exactly when no entry bears it. *)
Theorem get_signal_by_id_newest (m : SignalManager) (id : string) :
  (forall s, get_signal_by_id m id = Some s
             <-> exists older newer,
                   history m = older ++ s :: newer
                   /\ signal_id s = id
                   /\ Forall (fun x => signal_id x <> id) newer)
  /\ (get_signal_by_id m id = None
      <-> Forall (fun x => signal_id x <> id) (history m)).
Proof.
  unfold get_signal_by_id. generalize (history m) as h.
  induction h as [| x h IH] using rev_ind.
  - cbn. split.
    + intros s. split; [discriminate |].
      intros (older & newer & Hh & _). destruct older; discriminate.
    + split; [constructor | reflexivity].
  - rewrite find_rev_snoc. destruct IH as [IHsome IHnone].
    destruct (String.eqb_spec (signal_id x) id) as [Hid | Hid].
    + split.
      * intros s. split.
        -- intros [= <-]. exists h, []. auto.
        -- intros (older & newer & Hh & Hs & Hnewer).
           destruct newer as [| y newer _] using rev_ind.
           ++ apply app_inj_tail in Hh as [_ ->]. reflexivity.
           ++ rewrite app_comm_cons, app_assoc in Hh.
              apply app_inj_tail in Hh as [_ ->].
              apply Forall_app in Hnewer as [_ Hy].
              inversion Hy; contradiction.
      * split; [discriminate |]. intros Hall.
        apply Forall_app in Hall as [_ Hx]. inversion Hx; contradiction.
    + split.
      * intros s. rewrite IHsome. split.
        -- intros (older & newer & -> & Hs & Hnewer).
           exists older, (newer ++ [x]). rewrite <- app_assoc. cbn.
           split; [reflexivity | split; [assumption |]].
           apply Forall_app. split; [assumption | constructor; [assumption | constructor]].
        -- intros (older & newer & Hh & Hs & Hnewer).
           destruct newer as [| y newer _] using rev_ind.
           ++ apply app_inj_tail in Hh as [_ ->]. contradiction.
           ++ rewrite app_comm_cons, app_assoc in Hh.
              apply app_inj_tail in Hh as [-> ->].
              apply Forall_app in Hnewer as [Hnewer _].
              exists older, newer. auto.
      * rewrite IHnone. rewrite Forall_app. split; [| tauto].
        intros Hh. split; [assumption | constructor; [assumption | constructor]].
Qed.

(** ** How the operations of the store compose *)

(** X7. An accepted signal comes out after everything queued before it:
    draining the queue right after returns the old queue followed by the
    signal; on a queue that was empty, any positive count returns exactly
    that signal and leaves the queue empty again. *)
Theorem add_then_get_signals (m : SignalManager) (s : TradeSignal) :
  fst (fst (add_signal m s)) = true ->
  fst (get_signals (snd (add_signal m s)) None) = queue m ++ [s]
  /\ queue (snd (get_signals (snd (add_signal m s)) None)) = []
  /\ (queue m = [] ->
      forall k, 1 <= k ->
        fst (get_signals (snd (add_signal m s)) (Some k)) = [s]
        /\ get_queue_size (snd (get_signals (snd (add_signal m s)) (Some k))) = 0%nat).
Proof.
  intros Hacc. destruct (add_signal_accepted m s Hacc) as (_ & _ & _ & ->).
  cbn [snd]. split; [reflexivity | split; [reflexivity |]].
  intros Hempty k Hk. unfold get_signals, get_queue_size. cbn.
  rewrite Hempty, slice_to_nonneg, slice_from_nonneg by lia. cbn.
  replace (Z.to_nat k) with (S (Z.to_nat (k - 1))) by lia. cbn.
  rewrite firstn_nil, skipn_nil. split; reflexivity.
Qed.

Lemma add_then_get_signals_witness :
  fst (get_signals (snd (add_signal (SignalManager_init 1000 10000) Sample.eurusd_buy))
         (Some 1))
  = [Sample.eurusd_buy].
Proof.
  apply (proj2 (proj2 (add_then_get_signals (SignalManager_init 1000 10000)
                         Sample.eurusd_buy ltac:(vm_compute; reflexivity)))
           eq_refl 1).
  lia.
Defined.

(** X8. A signal that was accepted and then drained into a history that
    has room for it is what [get_signal_by_id] finds under its id. *)
Theorem add_take_then_find (m : SignalManager) (s : TradeSignal) :
  fst (fst (add_signal m s)) = true ->
  Z.of_nat (length (history m) + length (queue m) + 1) <= max_history m ->
  get_signal_by_id (snd (get_signals (snd (add_signal m s)) None)) (signal_id s)
  = Some s.
Proof.
  intros Hacc Hroom. destruct (add_signal_accepted m s Hacc) as (_ & _ & _ & ->).
  cbn [snd]. unfold get_signals, get_signal_by_id. cbn.
  destruct (Z.ltb_spec (max_history m)
              (Z.of_nat (length (history m ++ queue m ++ [s])))) as [Hover | _].
  - rewrite !length_app in Hover. cbn in Hover. lia.
  - rewrite app_assoc, find_rev_snoc, String.eqb_refl. reflexivity.
Qed.

Lemma add_take_then_find_witness :
  get_signal_by_id
    (snd (get_signals (snd (add_signal (SignalManager_init 1000 10000) Sample.gbpusd_sell))
            None))
    (signal_id Sample.gbpusd_sell)
  = Some Sample.gbpusd_sell.
Proof.
  apply (add_take_then_find (SignalManager_init 1000 10000) Sample.gbpusd_sell).
  - vm_compute. reflexivity.
  - apply Z.leb_le. vm_compute. reflexivity.
Defined.

(** X9. Clearing the queue loses its signals for good: from a fresh store,
    whatever the operations, after [clear_queue] the queue is empty, the
    history and the dedup set are as before, and each signal that was
    pending is rejected as a duplicate when submitted again. *)
Theorem clear_queue_drops (queue_cap history_cap : Z) (ops : list op) :
  let m := run (SignalManager_init queue_cap history_cap) ops in
  get_queue_size (clear_queue m) = 0%nat
  /\ history (clear_queue m) = history m
  /\ processed_signals (clear_queue m) = processed_signals m
  /\ forall s, In s (queue m) ->
       add_signal (clear_queue m) s
       = ((false, Some "Duplicate signal"%string), clear_queue m).
Proof.
  cbv zeta. repeat split. intros s Hin.
  destruct (run_stored_invariant queue_cap history_cap ops) as [Hall _].
  rewrite Forall_forall in Hall.
  destruct (Hall s) as [Hv Hseen].
  { apply elem_of_app. right. apply list_elem_of_In, Hin. }
  unfold add_signal. rewrite (validate_accepts_none s Hv). cbn.
  rewrite bool_decide_eq_true_2 by exact Hseen. reflexivity.
Qed.

(** X10. The id derived when none is given is symbol, action and whole
    seconds of the timestamp: two signals for the same symbol and action
    whose timestamps fall in the same second bear the same id, whatever
    their other fields, and once the first is accepted the second, if
    valid, is rejected as a duplicate. *)
Theorem same_second_collides (now : datetime) (posix_seconds : datetime -> Z)
    (m : SignalManager) (sym act : string)
    (bro1 bro2 : string) (lot1 lot2 : float) (sl1 sl2 tp1 tp2 : option float)
    (com1 com2 : string) (ts1 ts2 : option datetime) :
  let time_of ts := match ts with Some t => t | None => now end in
  let s1 := new_signal now posix_seconds sym act bro1 lot1 sl1 tp1 com1 ts1 None in
  let s2 := new_signal now posix_seconds sym act bro2 lot2 sl2 tp2 com2 ts2 None in
  posix_seconds (time_of ts1) = posix_seconds (time_of ts2) ->
  signal_id s1 = signal_id s2
  /\ (fst (fst (add_signal m s1)) = true ->
      fst (validate s2) = true ->
      add_signal (snd (add_signal m s1)) s2
      = ((false, Some "Duplicate signal"%string), snd (add_signal m s1))).
Proof.
  cbv zeta. intros Hsame.
  assert (Hid : signal_id (new_signal now posix_seconds sym act bro1 lot1 sl1 tp1 com1 ts1 None)
                = signal_id (new_signal now posix_seconds sym act bro2 lot2 sl2 tp2 com2 ts2 None)).
  { unfold new_signal. cbn [signal_id]. rewrite Hsame. reflexivity. }
  split; [exact Hid |]. intros Hacc Hv.
  destruct (add_signal_accepted m _ Hacc) as (_ & _ & _ & ->). cbn [snd].
  unfold add_signal at 1. destruct (validate _) as [valid error]; cbn in Hv; subst valid.
  cbn [negb processed_signals].
  rewrite bool_decide_eq_true_2; [reflexivity |].
  rewrite <- Hid. apply elem_of_union_r, elem_of_singleton. reflexivity.
Qed.

Lemma same_second_collides_witness :
  signal_id (new_signal Sample.t0 Sample.utc_seconds "GBPUSD" "SELL" "exness"
               0.25%float None None "first" (Some Sample.t1) None)
  = signal_id (new_signal Sample.t0 Sample.utc_seconds "GBPUSD" "SELL" "other"
                 2%float None None "second"
                 (Some (Datetime 2024 1 15 10 30 1 999999)) None).
Proof.
  apply (same_second_collides Sample.t0 Sample.utc_seconds (SignalManager_init 1000 10000)
           "GBPUSD" "SELL" "exness" "other" 0.25%float 2%float None None None None
           "first" "second" (Some Sample.t1) (Some (Datetime 2024 1 15 10 30 1 999999))).
  vm_compute. reflexivity.
Defined.

(** X11. A rejection for capacity does not mark the id as seen, so it can
    be retried: a valid, unseen signal refused by a full queue of positive
    capacity is accepted once the queue has been drained. *)
Theorem full_queue_retry (m : SignalManager) (s : TradeSignal) :
  fst (validate s) = true ->
  signal_id s ∉ processed_signals m ->
  0 < max_queue_size m <= Z.of_nat (length (queue m)) ->
  add_signal m s = ((false, Some "Queue is full"%string), m)
  /\ fst (add_signal (snd (get_signals m None)) s) = (true, None)
  /\ queue (snd (add_signal (snd (get_signals m None)) s)) = [s].
Proof.
  intros Hv Hfresh [Hpos Hfull]. unfold add_signal.
  destruct (validate s) as [valid error]; cbn in Hv; subst valid. cbn.
  rewrite !bool_decide_eq_false_2 by exact Hfresh.
  destruct (Z.leb_spec (max_queue_size m) (Z.of_nat (length (queue m)))); [| lia].
  destruct (Z.leb_spec (max_queue_size m) (Z.of_nat 0)); [lia |].
  repeat split.
Qed.

Lemma full_queue_retry_witness :
  let m := run (SignalManager_init 1 10000) [Add Sample.eurusd_buy] in
  add_signal m Sample.gbpusd_sell = ((false, Some "Queue is full"%string), m)
  /\ fst (add_signal (snd (get_signals m None)) Sample.gbpusd_sell) = (true, None)
  /\ queue (snd (add_signal (snd (get_signals m None)) Sample.gbpusd_sell))
     = [Sample.gbpusd_sell].
Proof.
  intros m. apply (full_queue_retry m Sample.gbpusd_sell).
  - vm_compute. reflexivity.
  - apply (bool_decide_unpack _). vm_compute. exact I.
  - split; [reflexivity | apply Z.leb_le; vm_compute; reflexivity].
Defined.

(** * Further properties of serialization *)

(** The constructor refuses keywords that are not fields and calls that
    lack a field without default. *)
Lemma from_kwargs_rejects (now : datetime) (posix_seconds : datetime -> Z)
    (data : gmap string pyval) :
  (exists k, In k ["symbol"; "action"; "broker"; "lot_size"]%string /\ data !! k = None)
  \/ (exists k, (k ∉ field_names) /\ is_Some (data !! k)) ->
  exists e, from_kwargs now posix_seconds data = inl e.
Proof.
  intros Hbad. unfold from_kwargs.
  destruct (bool_decide_reflect (dom data ⊆ field_names)) as [Hsub | _]; [| eauto].
  destruct Hbad as [(k & Hk & Hnone) | (k & Hk & Hsome)].
  - unfold required_str, required_float.
    cbn in Hk. destruct Hk as [<- | [<- | [<- | [<- | []]]]]; rewrite Hnone.
    + cbn. eauto.
    + destruct (data !! "symbol"%string) as [[] |]; cbn; eauto.
    + destruct (data !! "symbol"%string) as [[] |]; cbn; eauto;
        destruct (data !! "action"%string) as [[] |]; cbn; eauto.
    + destruct (data !! "symbol"%string) as [[] |]; cbn; eauto;
        destruct (data !! "action"%string) as [[] |]; cbn; eauto;
        destruct (data !! "broker"%string) as [[] |]; cbn; eauto.
  - exfalso. apply Hk, Hsub, elem_of_dom, Hsome.
Qed.

(** X12. [from_dict] raises, and builds no signal, on a dictionary that
    lacks one of [symbol], [action], [broker], [lot_size] or that holds a
    key that is not a field of the signal. *)
Theorem from_dict_rejects (now : datetime) (posix_seconds : datetime -> Z)
    (data : gmap string pyval) :
  (exists k, In k ["symbol"; "action"; "broker"; "lot_size"]%string /\ data !! k = None)
  \/ (exists k, (k ∉ field_names) /\ is_Some (data !! k)) ->
  exists e, from_dict now posix_seconds data = inl e.
Proof.
  intros Hbad. unfold from_dict.
  destruct (data !! "timestamp"%string) as [[| t | | |] |] eqn:Hts; cbn [bind];
    try (apply from_kwargs_rejects; exact Hbad).
  destruct (fromisoformat t) as [d |]; cbn [bind]; [| eauto].
  apply from_kwargs_rejects.
  destruct Hbad as [(k & Hk & Hnone) | (k & Hk & Hsome)].
  - left. exists k. split; [exact Hk |].
    rewrite lookup_insert_ne; [exact Hnone |].
    intros <-. cbn in Hk. destruct Hk as [Hk | [Hk | [Hk | [Hk | []]]]]; discriminate Hk.
  - right. exists k. split; [exact Hk |].
    rewrite lookup_insert_ne; [exact Hsome |].
    intros <-. apply Hk. vm_compute. reflexivity.
Qed.

Lemma from_dict_rejects_witness :
  exists e,
    from_dict Sample.t0 Sample.utc_seconds
      {[ "symbol"%string := VStr "EURUSD"; "action"%string := VStr "BUY";
         "lot_size"%string := VFloat 0.5 ]} = inl e.
Proof.
  apply from_dict_rejects. left. exists "broker"%string. split.
  - cbn. auto.
  - vm_compute. reflexivity.
Defined.

(** X13. A dictionary that holds just the four fields without default
    gives a signal with no stop loss, no take profit, an empty comment, the
    current time as timestamp, and the id [symbol_action_seconds] derived
    from them. *)
Theorem from_dict_defaults_derived (now : datetime) (posix_seconds : datetime -> Z)
    (sym act bro : string) (lot : float) :
  from_dict now posix_seconds
    {[ "symbol"%string := VStr sym; "action"%string := VStr act;
       "broker"%string := VStr bro; "lot_size"%string := VFloat lot ]}
  = inr {| symbol := sym; action := act; broker := bro; lot_size := lot;
           stop_loss := None; take_profit := None; comment := "";
           timestamp := now;
           signal_id := (sym ++ "_" ++ act ++ "_"
                         ++ Py.str_of_int (posix_seconds now))%string |}.
Proof. vm_compute. reflexivity. Qed.

(** * Further properties of the bridge *)

(** ** The dispatcher *)

(** X14. A GET_SIGNALS request whose count is absent, null or an integer is
    answered with the dictionaries of the signals [get_signals] returns, in
    order, and with the size of the queue left; what it returns and what it
    leaves add up to the queue before; [signals_sent] grows by the number
    returned; the status and the last contact are untouched. *)
Theorem get_signals_request_served (now : nat -> datetime) (b : MQL5Bridge)
    (request : gmap string pyval) (a : string) (count : option Z) :
  request !! "action"%string = Some (VStr a) ->
  Py.upper a = "GET_SIGNALS"%string ->
  get_default request "count" VNone
  = match count with Some k => VInt k | None => VNone end ->
  exists b',
    _process_request now b request
    = inr (Signals_response
             (map to_dict (fst (get_signals (signal_manager b) count)))
             (length (queue (snd (get_signals (signal_manager b) count)))),
           b',
           [Info_sending (length (fst (get_signals (signal_manager b) count)))])
    /\ signal_manager b' = snd (get_signals (signal_manager b) count)
    /\ (length (fst (get_signals (signal_manager b) count))
        + length (queue (signal_manager b')) = length (queue (signal_manager b)))%nat
    /\ signals_sent (stats b')
       = signals_sent (stats b)
         + Z.of_nat (length (fst (get_signals (signal_manager b) count)))
    /\ connection_status b' = connection_status b
    /\ last_heartbeat b' = last_heartbeat b.
Proof.
  intros Hreq Ha Hcount. unfold _process_request.
  unfold get_default at 1. rewrite Hreq. cbn [bind]. rewrite Ha.
  cbn [String.eqb Ascii.eqb Bool.eqb andb]. rewrite Hcount.
  pose proof (get_signals_partition (signal_manager b) count) as Hpart.
  destruct count as [k |]; cbn [bind];
    destruct (get_signals (signal_manager b) _) as [out m'] eqn:E; cbn [fst snd] in *;
    eexists; (split; [unfold get_queue_size; reflexivity |]); cbn;
    (split; [reflexivity |]);
    (split; [rewrite <- Hpart, length_app; reflexivity |]); auto.
Qed.

Lemma get_signals_request_served_witness :
  exists b',
    _process_request (Sample.clock_at Sample.t1) (started MQL5Bridge_init)
      Sample.get_signals_request
    = inr (Signals_response [] 0, b', [Info_sending 0]).
Proof.
  destruct (get_signals_request_served (Sample.clock_at Sample.t1)
              (started MQL5Bridge_init) Sample.get_signals_request
              "GET_SIGNALS" None eq_refl eq_refl eq_refl) as (b' & Hres & Hm & _).
  exists b'. rewrite Hres. reflexivity.
Defined.

(** X15. A request whose action, upper-cased, is none of the four known
    ones, a request without action included, changes nothing and is
    answered with an error that names the upper-cased action. *)
Theorem unknown_action_refused (now : nat -> datetime) (b : MQL5Bridge)
    (request : gmap string pyval) (a : string) :
  get_default request "action" (VStr "") = VStr a ->
  ~ In (Py.upper a) ["GET_SIGNALS"; "SEND_STATUS"; "HEARTBEAT"; "GET_BRIDGE_STATUS"]%string ->
  _process_request now b request
  = inr (Error_response ("Unknown action: " ++ Py.upper a)%string, b,
         [Warning_unknown_action (Py.upper a)]).
Proof.
  intros Hreq Ha. unfold _process_request. rewrite Hreq. cbn [bind].
  destruct (String.eqb_spec (Py.upper a) "GET_SIGNALS") as [E | _];
    [exfalso; apply Ha; rewrite E; cbn; auto |].
  destruct (String.eqb_spec (Py.upper a) "SEND_STATUS") as [E | _];
    [exfalso; apply Ha; rewrite E; cbn; auto |].
  destruct (String.eqb_spec (Py.upper a) "HEARTBEAT") as [E | _];
    [exfalso; apply Ha; rewrite E; cbn; auto |].
  destruct (String.eqb_spec (Py.upper a) "GET_BRIDGE_STATUS") as [E | _];
    [exfalso; apply Ha; rewrite E; cbn; auto 6 |].
  reflexivity.
Qed.

Lemma unknown_action_refused_witness :
  _process_request (Sample.clock_at Sample.t0) (Sample.connected_at Sample.t0) ∅
  = inr (Error_response "Unknown action: ", Sample.connected_at Sample.t0,
         [Warning_unknown_action ""]).
Proof.
  apply (unknown_action_refused (Sample.clock_at Sample.t0)
           (Sample.connected_at Sample.t0) ∅ "").
  - reflexivity.
  - cbn. intros [H | [H | [H | [H | []]]]]; discriminate H.
Defined.

(** X16. The dispatcher reads the action without regard to case: two
    requests that differ only in the case of the letters of the action are
    served alike. *)
Theorem action_case_insensitive (now : nat -> datetime) (b : MQL5Bridge)
    (request : gmap string pyval) (a a' : string) :
  Py.upper a = Py.upper a' ->
  _process_request now b (<["action"%string := VStr a]> request)
  = _process_request now b (<["action"%string := VStr a']> request).
Proof.
  intros Hup. unfold _process_request, get_default.
  rewrite !lookup_insert_eq. cbn [bind]. rewrite Hup.
  rewrite !(lookup_insert_ne _ "action"%string "count"%string) by discriminate.
  rewrite !(lookup_insert_ne _ "action"%string "status"%string) by discriminate.
  rewrite !(lookup_insert_ne _ "action"%string "message"%string) by discriminate.
  reflexivity.
Qed.

Lemma action_case_insensitive_witness :
  _process_request (Sample.clock_at Sample.t0) (started MQL5Bridge_init)
    (<["action"%string := VStr "Heartbeat"]> ∅)
  = _process_request (Sample.clock_at Sample.t0) (started MQL5Bridge_init)
      (<["action"%string := VStr "HEARTBEAT"]> ∅).
Proof.
  apply (action_case_insensitive (Sample.clock_at Sample.t0) (started MQL5Bridge_init)
           ∅ "Heartbeat" "HEARTBEAT").
  reflexivity.
Defined.

(** What no request touches. *)
Lemma process_request_keeps (now : nat -> datetime) (b b' : MQL5Bridge)
    (request : gmap string pyval) (resp : response) (logs : list log_record) :
  _process_request now b request = inr (resp, b', logs) ->
  processed_signals (signal_manager b') = processed_signals (signal_manager b)
  /\ max_queue_size (signal_manager b') = max_queue_size (signal_manager b)
  /\ max_history (signal_manager b') = max_history (signal_manager b)
  /\ (exists taken, queue (signal_manager b) = taken ++ queue (signal_manager b'))
  /\ running b' = running b
  /\ heartbeat_timeout b' = heartbeat_timeout b
  /\ signals_received (stats b') = signals_received (stats b)
  /\ errors (stats b') = errors (stats b)
  /\ reconnections (stats b') = reconnections (stats b)
  /\ signals_sent (stats b) <= signals_sent (stats b').
Proof.
  unfold _process_request.
  destruct (get_default request "action" (VStr "")) as [| a | | |]; cbn [bind];
    try discriminate.
  destruct (String.eqb (Py.upper a) "GET_SIGNALS").
  - assert (Hserve : forall count,
              (let '(signals, m) := get_signals (signal_manager b) count in
               inr (Signals_response (map to_dict signals) (get_queue_size m),
                    {| running := running b; signal_manager := m;
                       connection_status := connection_status b;
                       last_heartbeat := last_heartbeat b;
                       heartbeat_timeout := heartbeat_timeout b;
                       stats := {| signals_sent :=
                                     signals_sent (stats b) + Z.of_nat (length signals);
                                   signals_received := signals_received (stats b);
                                   errors := errors (stats b);
                                   reconnections := reconnections (stats b) |} |},
                    [Info_sending (length signals)]))
              = (inr (resp, b', logs) : exn + _) ->
              processed_signals (signal_manager b') = processed_signals (signal_manager b)
              /\ max_queue_size (signal_manager b') = max_queue_size (signal_manager b)
              /\ max_history (signal_manager b') = max_history (signal_manager b)
              /\ (exists taken, queue (signal_manager b) = taken ++ queue (signal_manager b'))
              /\ running b' = running b
              /\ heartbeat_timeout b' = heartbeat_timeout b
              /\ signals_received (stats b') = signals_received (stats b)
              /\ errors (stats b') = errors (stats b)
              /\ reconnections (stats b') = reconnections (stats b)
              /\ signals_sent (stats b) <= signals_sent (stats b')).
    { intros count.
      pose proof (get_signals_partition (signal_manager b) count) as Hpart.
      assert (Hcfg : processed_signals (snd (get_signals (signal_manager b) count))
                     = processed_signals (signal_manager b)
                     /\ max_queue_size (snd (get_signals (signal_manager b) count))
                        = max_queue_size (signal_manager b)
                     /\ max_history (snd (get_signals (signal_manager b) count))
                        = max_history (signal_manager b))
        by (unfold get_signals; destruct count; auto).
      destruct (get_signals (signal_manager b) count) as [out m']; cbn [fst snd] in *.
      destruct Hcfg as (? & ? & ?).
      intros [= <- <- <-]; cbn.
      repeat (split; [first [assumption | reflexivity | eauto] |]). lia. }
    destruct (get_default request "count" VNone); cbn [bind]; try discriminate;
      apply Hserve.
  - destruct (String.eqb (Py.upper a) "SEND_STATUS");
      [| destruct (String.eqb (Py.upper a) "HEARTBEAT");
         [| destruct (String.eqb (Py.upper a) "GET_BRIDGE_STATUS")]];
      intros [= <- <- <-]; cbn;
      repeat (split; [first [reflexivity | exists []; reflexivity] |]); lia.
Qed.

(** X17. No request enqueues anything or touches what the bridge is
    configured with: whatever the request, the dedup set, the history cap
    and the queue cap are as before, the queue left is a suffix of the
    queue before, [running] and the heartbeat timeout are unchanged, the
    counters [signals_received], [errors] and [reconnections] are
    unchanged and [signals_sent] does not decrease. *)
Theorem process_request_frame (now : nat -> datetime) (b b' : MQL5Bridge)
    (request : gmap string pyval) (resp : response) (logs : list log_record) :
  _process_request now b request = inr (resp, b', logs) ->
  processed_signals (signal_manager b') = processed_signals (signal_manager b)
  /\ max_queue_size (signal_manager b') = max_queue_size (signal_manager b)
  /\ max_history (signal_manager b') = max_history (signal_manager b)
  /\ (exists taken, queue (signal_manager b) = taken ++ queue (signal_manager b'))
  /\ running b' = running b
  /\ heartbeat_timeout b' = heartbeat_timeout b
  /\ signals_received (stats b') = signals_received (stats b)
  /\ errors (stats b') = errors (stats b)
  /\ reconnections (stats b') = reconnections (stats b)
  /\ signals_sent (stats b) <= signals_sent (stats b').
Proof. apply process_request_keeps. Qed.

Lemma process_request_frame_witness :
  errors (stats (Sample.connected_at Sample.t0)) = errors (stats (started MQL5Bridge_init)).
Proof.
  apply (process_request_frame (Sample.clock_at Sample.t0) (started MQL5Bridge_init)
           (Sample.connected_at Sample.t0) Sample.heartbeat_request
           (Heartbeat_response (isoformat Sample.t0) 0) []).
  vm_compute. reflexivity.
Defined.

(** ** The request loop *)

Section LoopProperties.

Variable loads : string -> json_parse.
Variable str_of_exn : exn -> string.

(** One pass: the three ways it can end. *)
Lemma run_iteration_cases (now : nat -> datetime) (b : MQL5Bridge) (message : string) :
  run_iteration loads str_of_exn now b (Some message)
  = (b, [Error_response "Invalid JSON"], [Error_invalid_json])
  \/ (exists e,
        run_iteration loads str_of_exn now b (Some message)
        = (count_error b,
           if running b then [Error_response (str_of_exn e)] else [],
           [Error_bridge e]))
  \/ (exists request resp b' logs,
        loads message = Decoded_object request
        /\ _process_request now b request = inr (resp, b', logs)
        /\ run_iteration loads str_of_exn now b (Some message)
           = (b', [resp], map Request_log logs)).
Proof.
  unfold run_iteration. destruct (loads message) as [| request |].
  - left. reflexivity.
  - destruct (_process_request now b request) as [e | [[resp b'] logs]] eqn:E.
    + right. left. eauto.
    + right. right. eauto 8.
  - right. left. eauto.
Qed.

Lemma run_iteration_running (now : nat -> datetime) (b : MQL5Bridge)
    (received : option string) :
  running (fst (fst (run_iteration loads str_of_exn now b received))) = running b.
Proof.
  destruct received as [message |]; [| reflexivity].
  destruct (run_iteration_cases now b message)
    as [-> | [[e ->] | (request & resp & b' & logs & _ & Hreq & ->)]];
    try reflexivity.
  cbn. apply (process_request_keeps now b b' request resp logs Hreq).
Qed.

(** X18. The loop answers every text it receives exactly once, whether it
    parses or not and whether serving it raises or not, and sends nothing
    when it receives nothing: on a running bridge the number of responses
    sent is the number of texts received. *)
Theorem run_one_response_each (inputs : list ((nat -> datetime) * option string))
    (b : MQL5Bridge) :
  running b = true ->
  length (snd (fst (_run loads str_of_exn inputs b)))
  = length (omap snd inputs).
Proof.
  revert b. induction inputs as [| [now received] inputs IH]; intros b Hrun;
    [reflexivity |].
  cbn [_run]. rewrite Hrun.
  pose proof (run_iteration_running now b received) as Hkeep.
  assert (Hone : length (snd (fst (run_iteration loads str_of_exn now b received)))
                 = length (omap snd [(now, received)])).
  { destruct received as [message |]; [| reflexivity].
    destruct (run_iteration_cases now b message)
      as [-> | [[e ->] | (request & resp & b' & logs & _ & _ & ->)]];
      try reflexivity.
    cbn. rewrite Hrun. reflexivity. }
  destruct (run_iteration loads str_of_exn now b received) as [[b1 r1] l1].
  cbn [fst snd] in *. rewrite Hrun in Hkeep. specialize (IH b1 Hkeep).
  destruct (_run loads str_of_exn inputs b1) as [[b2 r2] l2]. cbn [fst snd] in *.
  rewrite length_app, Hone, IH.
  destruct received; reflexivity.
Qed.

(** X19. A request answered with an error leaves the store and the
    session as they were: whenever a pass sends an error response, the
    bridge afterwards is the bridge before, or the bridge before with its
    [errors] counter one higher. *)
Theorem error_response_changes_nothing (now : nat -> datetime) (b : MQL5Bridge)
    (message text : string) :
  In (Error_response text)
     (snd (fst (run_iteration loads str_of_exn now b (Some message)))) ->
  fst (fst (run_iteration loads str_of_exn now b (Some message))) = b
  \/ fst (fst (run_iteration loads str_of_exn now b (Some message))) = count_error b.
Proof.
  destruct (run_iteration_cases now b message)
    as [-> | [[e ->] | (request & resp & b' & logs & _ & Hreq & ->)]];
    cbn [fst snd]; [auto | auto |].
  intros [-> | []]. left.
  revert Hreq. unfold _process_request.
  destruct (get_default request "action" (VStr "")) as [| a | | |]; cbn [bind];
    try discriminate.
  destruct (String.eqb (Py.upper a) "GET_SIGNALS").
  { destruct (get_default request "count" VNone); cbn [bind]; try discriminate;
      destruct (get_signals _ _); discriminate. }
  destruct (String.eqb (Py.upper a) "SEND_STATUS"); [discriminate |].
  destruct (String.eqb (Py.upper a) "HEARTBEAT"); [discriminate |].
  destruct (String.eqb (Py.upper a) "GET_BRIDGE_STATUS"); [discriminate |].
  intros [= _ <- _]. reflexivity.
Qed.

(** X20. The peer cannot enqueue: through any run of the loop, failed
    requests included, the dedup set is as before, the queue left is a
    suffix of the queue before, [running] is unchanged and [errors] never
    decreases. *)
Theorem run_frame (inputs : list ((nat -> datetime) * option string)) (b : MQL5Bridge) :
  let b' := fst (fst (_run loads str_of_exn inputs b)) in
  processed_signals (signal_manager b') = processed_signals (signal_manager b)
  /\ (exists taken, queue (signal_manager b) = taken ++ queue (signal_manager b'))
  /\ running b' = running b
  /\ errors (stats b) <= errors (stats b').
Proof.
  cbv zeta. revert b. induction inputs as [| [now received] inputs IH]; intros b.
  - cbn. repeat split; [exists []; reflexivity | lia].
  - cbn [_run]. destruct (running b) eqn:Hrun.
    2: { cbn. rewrite Hrun. repeat split; [exists []; reflexivity | lia]. }
    assert (Hstep : let b1 := fst (fst (run_iteration loads str_of_exn now b received)) in
              processed_signals (signal_manager b1) = processed_signals (signal_manager b)
              /\ (exists taken, queue (signal_manager b) = taken ++ queue (signal_manager b1))
              /\ running b1 = running b
              /\ errors (stats b) <= errors (stats b1)).
    { cbv zeta. destruct received as [message |].
      2: { cbn. repeat split; [exists []; reflexivity | lia]. }
      destruct (run_iteration_cases now b message)
        as [-> | [[e ->] | (request & resp & b' & logs & _ & Hreq & ->)]];
        cbn [fst snd].
      - repeat split; [exists []; reflexivity | lia].
      - cbn. repeat split; [exists []; reflexivity | lia].
      - destruct (process_request_keeps now b b' request resp logs Hreq)
          as (Hp & _ & _ & Hq & Hr & _ & _ & He & _).
        repeat split; [exact Hp | exact Hq | exact Hr | lia]. }
    cbv zeta in Hstep.
    destruct (run_iteration loads str_of_exn now b received) as [[b1 r1] l1].
    cbn [fst snd] in Hstep. destruct Hstep as (Hp1 & [t1 Hq1] & Hr1 & He1).
    specialize (IH b1).
    destruct (_run loads str_of_exn inputs b1) as [[b2 r2] l2]. cbn [fst snd] in *.
    destruct IH as (Hp2 & [t2 Hq2] & Hr2 & He2).
    repeat split; [congruence | | congruence | lia].
    exists (t1 ++ t2). rewrite Hq1, Hq2, app_assoc. reflexivity.
Qed.

End LoopProperties.

Lemma run_one_response_each_witness :
  length (snd (fst (_run (fun _ => Decode_error) (fun _ => "error"%string)
                      [(Sample.clock_at Sample.t0, Some "{"%string);
                       (Sample.clock_at Sample.t1, None);
                       (Sample.clock_at Sample.t1, Some "]"%string)]
                      (started MQL5Bridge_init))))
  = 2%nat.
Proof.
  apply (run_one_response_each (fun _ => Decode_error) (fun _ => "error"%string)
           [(Sample.clock_at Sample.t0, Some "{"%string);
            (Sample.clock_at Sample.t1, None);
            (Sample.clock_at Sample.t1, Some "]"%string)]
           (started MQL5Bridge_init)).
  reflexivity.
Defined.

Lemma error_response_changes_nothing_witness :
  fst (fst (run_iteration (fun _ => Decoded_other) (fun _ => "no attribute"%string)
              (Sample.clock_at Sample.t0) (Sample.connected_at Sample.t0) (Some "[]"%string)))
  = Sample.connected_at Sample.t0
  \/ fst (fst (run_iteration (fun _ => Decoded_other) (fun _ => "no attribute"%string)
                 (Sample.clock_at Sample.t0) (Sample.connected_at Sample.t0) (Some "[]"%string)))
     = count_error (Sample.connected_at Sample.t0).
Proof.
  apply (error_response_changes_nothing (fun _ => Decoded_other)
           (fun _ => "no attribute"%string) (Sample.clock_at Sample.t0)
           (Sample.connected_at Sample.t0) "[]" "no attribute").
  vm_compute. left. reflexivity.
Defined.

(** ** The heartbeat monitor over time *)

Lemma monitor_poll_keeps (now : datetime) (b : MQL5Bridge) :
  running (fst (monitor_poll now b)) = running b
  /\ last_heartbeat (fst (monitor_poll now b)) = last_heartbeat b
  /\ heartbeat_timeout (fst (monitor_poll now b)) = heartbeat_timeout b
  /\ signal_manager (fst (monitor_poll now b)) = signal_manager b
  /\ stats (fst (monitor_poll now b)) = stats b.
Proof.
  unfold monitor_poll. destruct (last_heartbeat b) as [t |] eqn:E.
  - destruct (elapsed_gt now t (heartbeat_timeout b)); cbn; auto.
  - cbn. auto.
Qed.

(** X21. A bridge that was never contacted is never marked disconnected:
    while the last contact is unset, the monitor changes nothing and logs
    nothing, however long it runs. *)
Theorem monitor_waits_for_first_contact (ticks : list datetime) (b : MQL5Bridge) :
  last_heartbeat b = None ->
  _monitor_heartbeat ticks b = (b, []).
Proof.
  intros Hnone. induction ticks as [| t ticks IH]; [reflexivity |].
  cbn [_monitor_heartbeat]. destruct (running b); [| reflexivity].
  unfold monitor_poll. rewrite Hnone, IH. reflexivity.
Qed.

Lemma monitor_waits_for_first_contact_witness :
  _monitor_heartbeat [Sample.t0_plus_31s; Sample.t0_plus_36s] (started MQL5Bridge_init)
  = (started MQL5Bridge_init, []).
Proof.
  apply (monitor_waits_for_first_contact [Sample.t0_plus_31s; Sample.t0_plus_36s]
           (started MQL5Bridge_init)).
  reflexivity.
Defined.

(** X22. On a running bridge last contacted at [t], with no request in
    between, the monitor warns once for every wake-up at which more than
    the timeout has elapsed since [t], in order; the status ends as
    disconnected if there was such a wake-up and as it was otherwise; the
    store, the counters and the last contact are untouched. *)
Theorem monitor_warns_each_late_poll (ticks : list datetime) (b : MQL5Bridge)
    (t : datetime) :
  running b = true ->
  last_heartbeat b = Some t ->
  let late now := elapsed_gt now t (heartbeat_timeout b) in
  let b' := fst (_monitor_heartbeat ticks b) in
  snd (_monitor_heartbeat ticks b)
  = map (fun now => Warning_connection_lost (to_micros now - to_micros t))
        (List.filter late ticks)
  /\ connection_status b'
     = (if existsb late ticks then "disconnected"%string else connection_status b)
  /\ signal_manager b' = signal_manager b
  /\ stats b' = stats b
  /\ last_heartbeat b' = Some t.
Proof.
  cbv zeta. revert b. induction ticks as [| now ticks IH]; intros b Hrun Hlast.
  - cbn. auto.
  - cbn [_monitor_heartbeat List.filter existsb]. rewrite Hrun.
    destruct (monitor_poll_keeps now b) as (Hr & Hl & Ht & Hm & Hs).
    assert (Hpoll : snd (monitor_poll now b)
                    = (if elapsed_gt now t (heartbeat_timeout b)
                       then [Warning_connection_lost (to_micros now - to_micros t)]
                       else [])
                    /\ connection_status (fst (monitor_poll now b))
                       = (if elapsed_gt now t (heartbeat_timeout b)
                          then "disconnected"%string else connection_status b)).
    { unfold monitor_poll. rewrite Hlast.
      destruct (elapsed_gt now t (heartbeat_timeout b)); cbn; auto. }
    destruct (monitor_poll now b) as [b1 l1]. cbn [fst snd] in *.
    destruct Hpoll as [-> Hstatus].
    rewrite Hrun in Hr. rewrite Hlast in Hl.
    destruct (IH b1 Hr Hl) as (Hlogs & Hst & Hm' & Hs' & Hl').
    rewrite Ht in Hlogs, Hst.
    destruct (_monitor_heartbeat ticks b1) as [b2 l2]. cbn [fst snd] in *.
    subst l2. rewrite Hst, Hstatus.
    repeat split; try congruence.
    + destruct (elapsed_gt now t (heartbeat_timeout b)); reflexivity.
    + destruct (elapsed_gt now t (heartbeat_timeout b)); cbn [orb];
        [destruct (existsb _ ticks) |]; reflexivity.
Qed.

Lemma monitor_warns_each_late_poll_witness :
  snd (_monitor_heartbeat [Sample.t1; Sample.t0_plus_31s; Sample.t0_plus_36s]
         (Sample.connected_at Sample.t0))
  = [Warning_connection_lost 31000000; Warning_connection_lost 36000000].
Proof.
  apply (proj1 (monitor_warns_each_late_poll
                  [Sample.t1; Sample.t0_plus_31s; Sample.t0_plus_36s]
                  (Sample.connected_at Sample.t0) Sample.t0 eq_refl eq_refl)).
Defined.

(** X23. A peer that reports within the timeout stays connected: after a
    SEND_STATUS or HEARTBEAT request served when the clock read [now 0], a
    wake-up of the monitor no more than the timeout later, the timeout
    itself included, changes nothing and logs nothing. *)
Theorem contact_within_timeout_stays_connected (now : nat -> datetime)
    (b b' : MQL5Bridge) (request : gmap string pyval) (a : string)
    (resp : response) (logs : list log_record) (poll : datetime) :
  request !! "action"%string = Some (VStr a) ->
  Py.upper a = "SEND_STATUS"%string \/ Py.upper a = "HEARTBEAT"%string ->
  _process_request now b request = inr (resp, b', logs) ->
  to_micros poll - to_micros (now 0%nat) <= heartbeat_timeout b * 1000000 ->
  monitor_poll poll b' = (b', [])
  /\ connection_status b' = "connected"%string.
Proof.
  intros Hreq Ha Hres Hsoon.
  destruct (liveness_request_connects now b request a Hreq Ha)
    as (resp0 & b0 & logs0 & Hres0 & Hlast & Hstatus).
  rewrite Hres in Hres0. injection Hres0 as <- <- <-.
  destruct (process_request_keeps now b b' request resp logs Hres)
    as (_ & _ & _ & _ & _ & Htimeout & _).
  split; [| exact Hstatus].
  unfold monitor_poll. rewrite Hlast, Htimeout. unfold elapsed_gt.
  destruct (Z.ltb_spec (heartbeat_timeout b * 1000000)
              (to_micros poll - to_micros (now 0%nat))); [lia | reflexivity].
Qed.

Lemma contact_within_timeout_stays_connected_witness :
  monitor_poll (Datetime 2024 1 15 10 30 30 0) (Sample.connected_at Sample.t0)
  = (Sample.connected_at Sample.t0, [])
  /\ connection_status (Sample.connected_at Sample.t0) = "connected"%string.
Proof.
  apply (contact_within_timeout_stays_connected (Sample.clock_at Sample.t0)
           (started MQL5Bridge_init) (Sample.connected_at Sample.t0)
           Sample.heartbeat_request "heartbeat"
           (Heartbeat_response (isoformat Sample.t0) 0) []
           (Datetime 2024 1 15 10 30 30 0)).
  - reflexivity.
  - right. vm_compute. reflexivity.
  - vm_compute. reflexivity.
  - apply Z.leb_le. vm_compute. reflexivity.
Defined.

(** ** From the producer to the peer *)

(** X24. What the producer sends is what the peer gets: a signal that
    [send_signal] accepts is served by the next GET_SIGNALS request without
    count as the last of the dictionaries returned, after those of the
    signals queued before it, with a queue size of zero; sending counts
    neither as a contact nor in the counters. *)
Theorem send_then_get_signals (now : nat -> datetime) (b : MQL5Bridge)
    (s : TradeSignal) (request : gmap string pyval) (a : string) :
  fst (fst (fst (send_signal b s))) = true ->
  request !! "action"%string = Some (VStr a) ->
  Py.upper a = "GET_SIGNALS"%string ->
  request !! "count"%string = None ->
  let b1 := snd (fst (send_signal b s)) in
  connection_status b1 = connection_status b
  /\ last_heartbeat b1 = last_heartbeat b
  /\ stats b1 = stats b
  /\ exists b2,
       _process_request now b1 request
       = inr (Signals_response
                (map to_dict (queue (signal_manager b)) ++ [to_dict s]) 0,
              b2,
              [Info_sending (length (queue (signal_manager b)) + 1)])
       /\ signals_sent (stats b2)
          = signals_sent (stats b) + Z.of_nat (length (queue (signal_manager b))) + 1.
Proof.
  intros Hacc Hreq Ha Hcount. cbv zeta.
  assert (Hadd : fst (fst (add_signal (signal_manager b) s)) = true).
  { revert Hacc. unfold send_signal.
    destruct (add_signal (signal_manager b) s) as [[success error] m]. auto. }
  destruct (add_signal_accepted _ _ Hadd) as (_ & _ & _ & Hres).
  unfold send_signal. rewrite Hres. cbn [fst snd connection_status last_heartbeat stats].
  repeat (split; [reflexivity |]).
  unfold _process_request, get_default. rewrite Hreq, Hcount. cbn [bind]. rewrite Ha.
  cbn [String.eqb Ascii.eqb Bool.eqb andb bind].
  eexists. split.
  - unfold get_signals, get_queue_size. cbn [queue signal_manager fst snd length].
    rewrite map_app, !length_app. reflexivity.
  - cbn [stats signals_sent length]. lia.
Qed.

Lemma send_then_get_signals_witness :
  exists b2,
    _process_request (Sample.clock_at Sample.t1)
      (snd (fst (send_signal (started MQL5Bridge_init) Sample.eurusd_buy)))
      Sample.get_signals_request
    = inr (Signals_response ([] ++ [to_dict Sample.eurusd_buy]) 0, b2, [Info_sending 1])
    /\ signals_sent (stats b2) = 0 + 0 + 1.
Proof.
  apply (send_then_get_signals (Sample.clock_at Sample.t1) (started MQL5Bridge_init)
           Sample.eurusd_buy Sample.get_signals_request "GET_SIGNALS").
  - vm_compute. reflexivity.
  - reflexivity.
  - reflexivity.
  - reflexivity.
Defined.

(** ** Stopping and reporting *)

(** X25. Once stopped, neither loop goes on: the request loop answers
    nothing more and the monitor, at its next check of [running], changes
    nothing. But the pass of the monitor that was already sleeping when
    [stop] ran does not look at [running] again: after a silence longer
    than the timeout it overwrites the status [stopped] with
    [disconnected]. *)
Theorem stop_and_pending_poll (loads : string -> json_parse)
    (str_of_exn : exn -> string)
    (inputs : list ((nat -> datetime) * option string))
    (ticks : list datetime) (now t : datetime) (b : MQL5Bridge) :
  last_heartbeat b = Some t ->
  elapsed_gt now t (heartbeat_timeout b) = true ->
  _run loads str_of_exn inputs (stop b) = (stop b, [], [])
  /\ _monitor_heartbeat ticks (stop b) = (stop b, [])
  /\ connection_status (stop b) = "stopped"%string
  /\ connection_status (fst (monitor_poll now (stop b))) = "disconnected"%string
  /\ signal_manager (fst (monitor_poll now (stop b))) = signal_manager b.
Proof.
  intros Hlast Hlate. split; [| split; [| split; [reflexivity |]]].
  - destruct inputs as [| [clock received] inputs]; reflexivity.
  - destruct ticks; reflexivity.
  - unfold monitor_poll. cbn [stop last_heartbeat heartbeat_timeout].
    rewrite Hlast, Hlate. split; reflexivity.
Qed.

Lemma stop_and_pending_poll_witness :
  connection_status
    (fst (monitor_poll Sample.t0_plus_31s (stop (Sample.connected_at Sample.t0))))
  = "disconnected"%string.
Proof.
  apply (stop_and_pending_poll (fun _ => Decode_error) (fun _ => "error"%string)
           [] [] Sample.t0_plus_31s Sample.t0 (Sample.connected_at Sample.t0)).
  - reflexivity.
  - vm_compute. reflexivity.
Defined.

(** X26. The local report and the remote one agree: a GET_BRIDGE_STATUS
    request is answered with exactly the fields of [get_status], and
    serving it changes nothing and logs nothing. *)
Theorem bridge_status_request_reports (now : nat -> datetime) (b : MQL5Bridge)
    (request : gmap string pyval) (a : string) :
  request !! "action"%string = Some (VStr a) ->
  Py.upper a = "GET_BRIDGE_STATUS"%string ->
  _process_request now b request
  = inr (Status_response
           (report_connection_status (get_status b))
           (report_queue_size (get_status b))
           (report_stats (get_status b))
           (report_last_heartbeat (get_status b)),
         b, []).
Proof.
  intros Hreq Ha. unfold _process_request, get_default.
  rewrite Hreq. cbn [bind]. rewrite Ha. reflexivity.
Qed.

Lemma bridge_status_request_reports_witness :
  _process_request (Sample.clock_at Sample.t1) (Sample.connected_at Sample.t0)
    Sample.bridge_status_request
  = inr (Status_response "connected" 0 (stats MQL5Bridge_init)
           (Some "2024-01-15T10:30:00"%string),
         Sample.connected_at Sample.t0, []).
Proof.
  rewrite (bridge_status_request_reports (Sample.clock_at Sample.t1)
             (Sample.connected_at Sample.t0) Sample.bridge_status_request
             "GET_BRIDGE_STATUS" eq_refl eq_refl).
  vm_compute. reflexivity.
Defined.
